(** * dicom-bridge-mx: the modality worklist bridge

    A shallow embedding of [modality_worklist_scu.py]: the schedule query
    ([get_worklist_from_db]), the worklist responder ([handle_find]), the
    liveness responder ([handle_echo]) and the store forwarder
    ([handle_store]), followed by the properties of the written
    specification, each settled against the embedding.

    Python values are embedded as follows.
    - [str] is [string]; a character is a code point of the Latin-1 range,
      the repertoire the built datasets declare (ISO_IR 100).
    - [int] is [Z]; a database [NULL] is [PyNone].
    - An exception is a value of [exn]; a call that may raise returns a
      [result].  Only instances of Python's [Exception] are modelled: they
      are what [except Exception] catches.
    - The external collaborators (the Oracle driver, the view behind the
      query, the downstream node) are records that say how each of their
      calls turns out.
    - A dataset is the record of the attributes the program assigns; the
      checks the dataset library runs on assignment are not modelled.
    - What the program acquires and releases is written to a trace.
      Logging is left out: no property below reads the log. *)

From Stdlib Require Import String Ascii List ZArith Lia Bool Arith PeanoNat.
From Stdlib Require Import DecimalString.
From Stdlib Require DecimalFacts DecimalPos.
From Stdlib Require Import Permutation Sorted.
Import ListNotations.
Open Scope list_scope.
Open Scope string_scope.

(* ===================================================================== *)
(** * Python strings *)
(* ===================================================================== *)

Module PyStr.

(** The characters [str.strip] and [str.split] treat as whitespace, within
    Latin-1: TAB..CR, FS..US, SPACE, NEL and NBSP. *)
Definition is_space (c : ascii) : bool :=
  let n := nat_of_ascii c in
  ((9 <=? n)%nat && (n <=? 13)%nat) || ((28 <=? n)%nat && (n <=? 32)%nat)
  || (n =? 133)%nat || (n =? 160)%nat.

Definition is_empty (s : string) : bool :=
  match s with EmptyString => true | String _ _ => false end.

(** [s.lstrip()] *)
Fixpoint lstrip (s : string) : string :=
  match s with
  | EmptyString => EmptyString
  | String c rest => if is_space c then lstrip rest else s
  end.

(** [s.rstrip()] *)
Fixpoint rstrip (s : string) : string :=
  match s with
  | EmptyString => EmptyString
  | String c rest =>
      let r := rstrip rest in
      if is_space c && is_empty r then EmptyString else String c r
  end.

(** [s.strip()] *)
Definition strip (s : string) : string := rstrip (lstrip s).

(** The token the scanner of [str.split] is holding, emitted if non-empty. *)
Definition flush (cur : string) : list string :=
  if is_empty cur then [] else [cur].

Fixpoint split_from (cur : string) (s : string) : list string :=
  match s with
  | EmptyString => flush cur
  | String c rest =>
      if is_space c then (flush cur ++ split_from EmptyString rest)%list
      else split_from (cur ++ String c EmptyString) rest
  end.

(** [s.split()]: the maximal runs of non-whitespace characters. *)
Definition split (s : string) : list string := split_from EmptyString s.

(** [sep.join(parts)] *)
Definition join (sep : string) (parts : list string) : string :=
  String.concat sep parts.

(** Python's normalisation of one slice bound against a length. *)
Definition slice_bound (len : nat) (k : Z) : nat :=
  let k' := if (k <? 0)%Z then (k + Z.of_nat len)%Z else k in
  Z.to_nat (Z.max 0 (Z.min (Z.of_nat len) k')).

(** [l[start:stop]] with either bound possibly omitted. *)
Definition slice {A : Type} (start stop : option Z) (l : list A) : list A :=
  let n := length l in
  let lo := match start with None => 0 | Some k => slice_bound n k end in
  let hi := match stop with None => n | Some k => slice_bound n k end in
  firstn (hi - lo) (skipn lo l).

Fixpoint zeros (n : nat) : string :=
  match n with O => EmptyString | S k => String "0" (zeros k) end.

Definition is_sign (c : ascii) : bool :=
  Ascii.eqb c "+" || Ascii.eqb c "-".

(** [s.zfill(width)]: zeros go after a leading sign. *)
Definition zfill (width : nat) (s : string) : string :=
  let n := String.length s in
  if (width <=? n)%nat then s
  else
    let fill := zeros (width - n) in
    match s with
    | String c rest => if is_sign c then String c (fill ++ rest) else fill ++ s
    | EmptyString => fill
    end.

(** [s.replace(old, new)] for a one-character [old], the only form the
    program uses. *)
Fixpoint replace (old : ascii) (new : string) (s : string) : string :=
  match s with
  | EmptyString => EmptyString
  | String c rest =>
      (if Ascii.eqb c old then new else String c EmptyString)
        ++ replace old new rest
  end.

Definition is_digit (c : ascii) : bool :=
  let n := nat_of_ascii c in (48 <=? n)%nat && (n <=? 57)%nat.

Fixpoint all_chars (p : ascii -> bool) (s : string) : bool :=
  match s with
  | EmptyString => true
  | String c rest => p c && all_chars p rest
  end.

(** Number of characters of [s] that are not whitespace. *)
Fixpoint count_nonspace (s : string) : nat :=
  match s with
  | EmptyString => 0
  | String c rest => (if is_space c then 0 else 1) + count_nonspace rest
  end.

(** The non-whitespace characters of a list of strings. *)
Definition total_nonspace (parts : list string) : nat :=
  fold_right (fun p n => count_nonspace p + n) 0 parts.

Definition starts_with_space (s : string) : bool :=
  match s with
  | EmptyString => false
  | String c _ => is_space c
  end.

Fixpoint ends_with_space (s : string) : bool :=
  match s with
  | EmptyString => false
  | String c EmptyString => is_space c
  | String _ rest => ends_with_space rest
  end.

End PyStr.

(* ===================================================================== *)
(** * Python values, exceptions and results *)
(* ===================================================================== *)

(** What a column of a fetched row can hold. *)
Inductive pyval : Type :=
| PyNone
| PyInt (z : Z)
| PyStr (s : string)
| PyDateTime (year month day hour minute second : Z).

(** [cx_Oracle.DatabaseError] carries the driver's error object (a message
    and a code); every other [Exception] is named by its class. *)
Inductive exn : Type :=
| DatabaseError (message : string) (code : Z)
| PyException (class : string).

Inductive result (A : Type) : Type :=
| Ok (a : A)
| Raise (e : exn).
Arguments Ok {A} a.
Arguments Raise {A} e.

Definition is_ok {A} (r : result A) : bool :=
  match r with Ok _ => true | Raise _ => false end.

(** A monad is all the handlers need: the pure one of [result] for the
    builder, a stateful one for the code that touches the outside world. *)
Class Monad (m : Type -> Type) : Type := {
  ret : forall {A}, A -> m A;
  bind : forall {A B}, m A -> (A -> m B) -> m B
}.

Declare Scope py_scope.
Notation "x <- c ;; k" := (bind c (fun x => k))
  (at level 61, c at next level, right associativity) : py_scope.
Notation "c ;;; k" := (bind c (fun _ => k))
  (at level 61, right associativity) : py_scope.
Open Scope py_scope.

#[global] Instance result_monad : Monad result := {
  ret := fun A a => Ok a;
  bind := fun A B r k => match r with Ok a => k a | Raise e => Raise e end
}.

Definition int_str (z : Z) : string := NilZero.string_of_int (Z.to_int z).

Definition two_digits (z : Z) : string := PyStr.zfill 2 (int_str z).
Definition four_digits (z : Z) : string := PyStr.zfill 4 (int_str z).

(** [d.strftime('%Y%m%d')], as the C library of Linux prints it: the
    month and the day in two digits, the year as it is, so in fewer than
    four digits before the year 1000. *)
Definition strftime_Ymd (year month day : Z) : string :=
  int_str year ++ two_digits month ++ two_digits day.

(** [str(v)], which is also how an f-string renders [v]. *)
Definition py_str (v : pyval) : string :=
  match v with
  | PyNone => "None"
  | PyInt z => int_str z
  | PyStr s => s
  | PyDateTime y mo d h mi s =>
      four_digits y ++ "-" ++ two_digits mo ++ "-" ++ two_digits d ++ " "
      ++ two_digits h ++ ":" ++ two_digits mi ++ ":" ++ two_digits s
  end.

(** Truth value of [v] in a condition. *)
Definition py_truthy (v : pyval) : bool :=
  match v with
  | PyNone => false
  | PyInt z => negb (z =? 0)%Z
  | PyStr s => negb (PyStr.is_empty s)
  | PyDateTime _ _ _ _ _ _ => true
  end.

Definition AttributeError : exn := PyException "AttributeError".
Definition TypeError : exn := PyException "TypeError".
Definition IndexError : exn := PyException "IndexError".

(** [v.strip()]: only a [str] has the method. *)
Definition method_strip (v : pyval) : result string :=
  match v with
  | PyStr s => Ok (PyStr.strip s)
  | _ => Raise AttributeError
  end.

(** [v.strftime('%Y%m%d')]: only a date has the method. *)
Definition method_strftime_Ymd (v : pyval) : result string :=
  match v with
  | PyDateTime y mo d _ _ _ => Ok (strftime_Ymd y mo d)
  | _ => Raise AttributeError
  end.

(** [v.replace(':', '')]: a [str] method; a date has a [replace] of another
    signature, the rest have none. *)
Definition method_replace (old : ascii) (new : string) (v : pyval)
  : result string :=
  match v with
  | PyStr s => Ok (PyStr.replace old new s)
  | PyDateTime _ _ _ _ _ _ => Raise TypeError
  | _ => Raise AttributeError
  end.

(** [v if v else default] *)
Definition or_default (v : pyval) (default : pyval) : pyval :=
  if py_truthy v then v else default.

(** A fetched row is a tuple of columns, read by position. *)
Definition row : Type := list pyval.

Definition item (r : row) (i : nat) : result pyval :=
  match nth_error r i with
  | Some v => Ok v
  | None => Raise IndexError
  end.

(* ===================================================================== *)
(** * The response builder (the body of the loop of [handle_find]) *)
(* ===================================================================== *)

(** The whole tokens of a [sep]-delimited list: [s.split(sep)] for a
    separator of one character. *)
Fixpoint tokens (sep : ascii) (s : string) : list string :=
  match s with
  | EmptyString => [EmptyString]
  | String c rest =>
      if Ascii.eqb c sep then EmptyString :: tokens sep rest
      else match tokens sep rest with
           | t :: ts => String c t :: ts
           | [] => [String c EmptyString]
           end
  end.

(** What pydicom's [Dataset] does with the values the builder assigns to
    it.  pydicom is a library the source imports; the three behaviours the
    loop depends on are written out here. *)
Module Pydicom.

(** The delimiter of the values of one element. *)
Definition backslash : ascii := ascii_of_nat 92.

Definition has_backslash (s : string) : bool :=
  negb (PyStr.all_chars (fun c => negb (Ascii.eqb c backslash)) s).

(** The value an element of text keeps: the text itself, or, when the text
    holds a backslash, the list of the values between the backslashes (a
    [MultiValue]). *)
Inductive stored : Type :=
| Single (s : string)
| MultiValue (values : list string).

(** [ds.Keyword = s] for a text [s]. *)
Definition store_text (s : string) : stored :=
  if has_backslash s then MultiValue (tokens backslash s) else Single s.

(** [ds.Keyword.replace(old, new)] on the value read back: a [MultiValue]
    has no such method. *)
Definition method_replace (old : ascii) (new : string) (v : stored)
  : result string :=
  match v with
  | Single s => Ok (PyStr.replace old new s)
  | MultiValue _ => Raise AttributeError
  end.

(** [ds.Keyword = v] for an element that holds a person name: the value is
    converted by [PersonName(v)], which gives [None] for [None], splits a
    text into its component groups, and raises on a value without
    [split]. *)
Definition person_name (v : pyval) : result pyval :=
  match v with
  | PyNone => Ok PyNone
  | PyStr s => Ok (PyStr s)
  | PyInt _ | PyDateTime _ _ _ _ _ _ => Raise AttributeError
  end.

End Pydicom.

(** A pydicom [Dataset] holds the elements assigned under a keyword of
    the DICOM dictionary.  An assignment under any other name sets an
    instance attribute of the Python object: it is no element of the
    dataset and is not encoded with it.  [PersonIdentifier],
    [ProcedureStepLocation] and [ScheduledPerformingPhysicianSequence] are
    no keywords of the dictionary, so the records below keep them apart
    from the elements, under the attributes of the object. *)
Record PerformingPhysicianAttributes : Type := {
  PersonIdentifier : string
}.

(** [perf_phys] *)
Record PerformingPhysician : Type := {
  PersonName : pyval;
  perf_phys_attributes : PerformingPhysicianAttributes
}.

Record ScheduledStepAttributes : Type := {
  ProcedureStepLocation : pyval;
  ScheduledPerformingPhysicianSequence : list PerformingPhysician
}.

(** [sched] *)
Record ScheduledStep : Type := {
  ScheduledProcedureStepStartDate : string;
  ScheduledProcedureStepStartTime : string;
  ScheduledProcedureStepDescription : pyval;
  ScheduledProcedureStepID : string;
  Modality : pyval;
  ScheduledStationAETitle : pyval;
  sched_attributes : ScheduledStepAttributes
}.

(** [ds]: every name assigned on it is a keyword.  The fields of text hold
    the text assigned. *)
Record Dataset : Type := {
  SpecificCharacterSet : string;
  PatientID : string;
  PatientName : string;
  PatientBirthDate : string;
  PatientSex : pyval;
  PatientComments : string;
  AccessionNumber : string;
  RequestedProcedureID : string;
  RequestedProcedureDescription : pyval;
  StudyInstanceUID : string;
  ReferringPhysicianName : pyval;
  ScheduledProcedureStepSequence : list ScheduledStep
}.

(** Lines 149-156: from the stripped name to [formatted_name]. *)
Definition format_name (full_name : string) : string :=
  let name_parts := PyStr.split full_name in
  if (3 <=? length name_parts)%nat then
    let last_names := PyStr.join " " (PyStr.slice (Some (-2)%Z) None name_parts) in
    let first_names := PyStr.join " " (PyStr.slice None (Some (-2)%Z) name_parts) in
    last_names ++ " " ++ first_names
  else full_name.

(** Lines 148-156: the name normalization, from the patient name column
    (a [str]) to [formatted_name]. *)
Definition normalize_name (patient_name : string) : string :=
  format_name (PyStr.strip patient_name).

(** The fixed root of the synthesized study identifiers. *)
Definition uid_root : string := "1.2.3".

(** Lines 142-190: one row shaped into one dataset.  The columns are read
    in the order the source reads them, so the first failing step is the
    exception the loop dies with.  Line 169 reads the patient identifier
    back from the dataset, not from the row. *)
Definition build_dataset (r : row) : result Dataset :=
  r10 <- item r 10 ;;
  let appointment_id_str := py_str r10 in
  r17 <- item r 17 ;;
  let patient_id := py_str r17 in
  let ds_PatientID := Pydicom.store_text patient_id in
  r0 <- item r 0 ;;
  full_name <- method_strip r0 ;;
  let formatted_name := format_name full_name in
  r18 <- item r 18 ;;
  let patient_name := formatted_name ++ " - " ++ py_str r18 in
  r5 <- item r 5 ;;
  birth_date <- method_strftime_Ymd r5 ;;
  r6 <- item r 6 ;;
  r19 <- item r 19 ;;
  let comments := "ACCOUNT_NUMBER: " ++ py_str r19 in
  let accession := PyStr.zfill 8 appointment_id_str in
  let procedure_id := PyStr.zfill 6 appointment_id_str in
  r9 <- item r 9 ;;
  clean_pid <- Pydicom.method_replace "_" "." ds_PatientID ;;
  let study_uid := uid_root ++ "." ++ appointment_id_str ++ "." ++ clean_pid in
  r11 <- item r 11 ;;
  referring <- Pydicom.person_name (or_default r11 (PyStr "Unknown")) ;;
  r3 <- item r 3 ;;
  start_date <- method_strftime_Ymd r3 ;;
  r4 <- item r 4 ;;
  start_time <- method_replace ":" EmptyString r4 ;;
  r8 <- item r 8 ;;
  r16 <- item r 16 ;;
  performer <- Pydicom.person_name (or_default r11 (PyStr "Unknown")) ;;
  r12 <- item r 12 ;;
  let perf_phys :=
    {| PersonName := performer;
       perf_phys_attributes :=
         {| PersonIdentifier :=
              if py_truthy r12 then py_str r12 else EmptyString |} |} in
  let sched :=
    {| ScheduledProcedureStepStartDate := start_date;
       ScheduledProcedureStepStartTime := start_time;
       ScheduledProcedureStepDescription := r9;
       ScheduledProcedureStepID := appointment_id_str;
       Modality := r8;
       ScheduledStationAETitle := r18;
       sched_attributes :=
         {| ProcedureStepLocation := r16;
            ScheduledPerformingPhysicianSequence := [perf_phys] |} |} in
  ret {| SpecificCharacterSet := "ISO_IR 100";
         PatientID := patient_id;
         PatientName := patient_name;
         PatientBirthDate := birth_date;
         PatientSex := r6;
         PatientComments := comments;
         AccessionNumber := accession;
         RequestedProcedureID := procedure_id;
         RequestedProcedureDescription := r9;
         StudyInstanceUID := study_uid;
         ReferringPhysicianName := referring;
         ScheduledProcedureStepSequence := [sched] |}.

(** The physician column gives a person name: it is a text, or counts as
    false and is replaced by the placeholder. *)
Definition names_physician (v : pyval) : bool :=
  match v with
  | PyStr _ => true
  | _ => negb (py_truthy v)
  end.

(** The rows the builder shapes: the name and the hour are text, the
    appointment date and the birth date are dates, the patient identifier
    prints without a backslash, the physician column gives a person name,
    and the row is long enough for the last column read. *)
Definition shapeable (r : row) : bool :=
  match nth_error r 0, nth_error r 3, nth_error r 4, nth_error r 5,
        nth_error r 11, nth_error r 17, nth_error r 19 with
  | Some (PyStr _), Some (PyDateTime _ _ _ _ _ _), Some (PyStr _),
    Some (PyDateTime _ _ _ _ _ _), Some physician, Some patient_id, Some _ =>
      names_physician physician
      && negb (Pydicom.has_backslash (py_str patient_id))
  | _, _, _, _, _, _, _ => false
  end.

(** A row as the view delivers it, used in the examples below. *)
Definition sample_row : row :=
  [ PyStr "MARIA ELENA GARCIA LOPEZ"; PyStr "P-77"; PyInt 5;
    PyDateTime 2024 3 9 0 0 0; PyStr "08:30"; PyDateTime 1980 12 1 0 0 0;
    PyStr "F"; PyInt 12; PyStr "CR"; PyStr "CHEST PA";
    PyInt 4711; PyStr "DR HOUSE"; PyInt 99; PyStr "R1";
    PyInt 1; PyStr "A"; PyStr "CENTRAL"; PyStr "MX_0042_7";
    PyStr "AE1,AE2"; PyStr "ACC-1"; PyStr "AM" ].


(* ===================================================================== *)
(** * The WHERE clause: Oracle's REGEXP_LIKE *)
(* ===================================================================== *)

(** The query selects a row when
    [REGEXP_LIKE(AETitle, '(^|,)' || :aetitle || '(,|$)')] holds.  The bind
    value becomes part of the pattern text, so the pattern is parsed after
    the concatenation.  The operators of POSIX extended regular expressions
    modelled here are [.], [*], [+], [?], [|], grouping, the anchors [^]
    and [$] and the backslash escape of a punctuation character; a pattern
    with a bracket expression, an interval or a back-reference is outside
    the fragment and is refused like an ill-formed one. *)
Module Regex.

Inductive regex : Type :=
| Eps
| Chr (c : ascii)
| Any
| Bol
| Eol
| Seq (a b : regex)
| Alt (a b : regex)
| Star (a : regex).

(** One open group while parsing: the finished branches and the atoms of
    the branch being read, both most recent first. *)
Record frame : Type := { branches : list regex; atoms : list regex }.

Definition empty_frame : frame := {| branches := []; atoms := [] |}.

Definition seq_of (atoms_rev : list regex) : regex :=
  fold_left (fun acc a => Seq a acc) atoms_rev Eps.

Definition close (f : frame) : regex :=
  fold_left (fun acc b => Alt b acc) (branches f) (seq_of (atoms f)).

Definition push_atom (a : regex) (f : frame) : frame :=
  {| branches := branches f; atoms := a :: atoms f |}.

Definition next_branch (f : frame) : frame :=
  {| branches := seq_of (atoms f) :: branches f; atoms := [] |}.

(** A postfix operator applies to the atom read last. *)
Definition postfix (op : regex -> regex) (f : frame) : option frame :=
  match atoms f with
  | a :: rest => Some {| branches := branches f; atoms := op a :: rest |}
  | [] => None
  end.

Definition is_alnum (c : ascii) : bool :=
  let n := nat_of_ascii c in
  ((48 <=? n)%nat && (n <=? 57)%nat) || ((65 <=? n)%nat && (n <=? 90)%nat)
  || ((97 <=? n)%nat && (n <=? 122)%nat).

Fixpoint parse_from (stack : list frame) (top : frame) (p : string)
  : option regex :=
  match p with
  | EmptyString =>
      match stack with [] => Some (close top) | _ :: _ => None end
  | String c rest =>
      if Ascii.eqb c "(" then parse_from (top :: stack) empty_frame rest
      else if Ascii.eqb c ")" then
        match stack with
        | f :: stack' => parse_from stack' (push_atom (close top) f) rest
        | [] => None
        end
      else if Ascii.eqb c "|" then parse_from stack (next_branch top) rest
      else if Ascii.eqb c "*" then
        match postfix Star top with
        | Some top' => parse_from stack top' rest
        | None => None
        end
      else if Ascii.eqb c "+" then
        match postfix (fun a => Seq a (Star a)) top with
        | Some top' => parse_from stack top' rest
        | None => None
        end
      else if Ascii.eqb c "?" then
        match postfix (fun a => Alt a Eps) top with
        | Some top' => parse_from stack top' rest
        | None => None
        end
      else if Ascii.eqb c "." then parse_from stack (push_atom Any top) rest
      else if Ascii.eqb c "^" then parse_from stack (push_atom Bol top) rest
      else if Ascii.eqb c "$" then parse_from stack (push_atom Eol top) rest
      else if Ascii.eqb c "\" then
        match rest with
        | String c' rest' =>
            if is_alnum c' then None
            else parse_from stack (push_atom (Chr c') top) rest'
        | EmptyString => None
        end
      else if Ascii.eqb c "[" || Ascii.eqb c "{" then None
      else parse_from stack (push_atom (Chr c) top) rest
  end.

Definition parse (p : string) : option regex := parse_from [] empty_frame p.

(** Where the engine stands in the subject: whether that is its very
    start, and what is left to read. *)
Record position : Type := { at_start : bool; rest : string }.

Definition advance (s : string) : position :=
  {| at_start := false; rest := s |}.

(** Zero or more rounds of [step] from [p]; a round that consumes nothing
    reaches no new position. *)
Fixpoint star_from (step : position -> list position) (fuel : nat)
    (p : position) : list position :=
  p :: match fuel with
       | O => []
       | S fuel' =>
           flat_map
             (fun q =>
                if (String.length (rest q) <? String.length (rest p))%nat
                then star_from step fuel' q else [])
             (step p)
       end.

(** The positions where a match of [r] that starts at [p] can end.  The
    period does not match a newline (no 'n' match parameter is given). *)
Fixpoint ends (r : regex) (p : position) : list position :=
  match r with
  | Eps => [p]
  | Chr c =>
      match rest p with
      | String c' s => if Ascii.eqb c c' then [advance s] else []
      | EmptyString => []
      end
  | Any =>
      match rest p with
      | String c' s => if Ascii.eqb c' "010" then [] else [advance s]
      | EmptyString => []
      end
  | Bol => if at_start p then [p] else []
  | Eol => if PyStr.is_empty (rest p) then [p] else []
  | Seq a b => flat_map (ends b) (ends a p)
  | Alt a b => (ends a p ++ ends b p)%list
  | Star a => star_from (ends a) (String.length (rest p)) p
  end.

Definition matches_at (r : regex) (p : position) : bool :=
  match ends r p with [] => false | _ :: _ => true end.

(** The positions after the first character of [s], in order. *)
Fixpoint later_positions (s : string) : list position :=
  match s with
  | EmptyString => []
  | String _ s' => advance s' :: later_positions s'
  end.

(** REGEXP_LIKE looks for a match anywhere in the subject. *)
Definition search (subject : string) (r : regex) : bool :=
  existsb (matches_at r)
          ({| at_start := true; rest := subject |} :: later_positions subject).

(** ** Patterns that hold an identity free of operators *)

(** The characters that are not read as themselves in a pattern. *)
Definition is_operator (c : ascii) : bool :=
  existsb (Ascii.eqb c)
    ["("; ")"; "|"; "*"; "+"; "?"; "."; "^"; "$"; "\"; "["; "{"]%char.

(** The pattern of a string of plain characters, followed by [k]. *)
Fixpoint lits (x : string) (k : regex) : regex :=
  match x with
  | EmptyString => k
  | String c x' => Seq (Chr c) (lits x' k)
  end.

(** The frame after reading a string of plain characters. *)
Fixpoint push_lits (x : string) (f : frame) : frame :=
  match x with
  | EmptyString => f
  | String c x' => push_lits x' (push_atom (Chr c) f)
  end.

(** What is left of [s] after its prefix [x], if [x] is one. *)
Fixpoint strip_prefix (x s : string) : option string :=
  match x, s with
  | EmptyString, _ => Some s
  | String c x', String d s' => if Ascii.eqb c d then strip_prefix x' s' else None
  | String _ _, EmptyString => None
  end.

Definition at_delimiter (s : string) : bool :=
  match s with
  | EmptyString => true
  | String c _ => Ascii.eqb c ","
  end.

(** [s] begins with [x] followed by a comma or by the end. *)
Definition starts_token (x s : string) : bool :=
  match strip_prefix x s with
  | Some s' => at_delimiter s'
  | None => false
  end.

(** Some comma of [s] is followed by [x] and then a comma or the end. *)
Fixpoint token_after_comma (x s : string) : bool :=
  match s with
  | EmptyString => false
  | String c s' => (Ascii.eqb c "," && starts_token x s') || token_after_comma x s'
  end.

(** The two groups the statement puts around the identity. *)
Definition opening : regex := Alt (Seq Bol Eps) (Seq (Chr ",") Eps).
Definition closing : regex := Alt (Seq (Chr ",") Eps) (Seq Eol Eps).

(** A comma, then the identity, then a delimiter. *)
Definition comma_then_token (x s : string) : bool :=
  match s with
  | EmptyString => false
  | String c s' => Ascii.eqb c "," && starts_token x s'
  end.

Definition comma_free (x : string) : Prop :=
  PyStr.all_chars (fun c => negb (Ascii.eqb c ",")) x = true.

End Regex.

(* ===================================================================== *)
(** * The Oracle side: driver calls and the worklist view *)
(* ===================================================================== *)

(** How the calls on the driver turn out ([None]: the call completes), and
    the rows of RIS_WORKLIST_VIEW, each with the 21 selected columns in
    the order of the select list. *)
Record OracleDb : Type := {
  makedsn_fault : option exn;
  connect_fault : option exn;
  cursor_fault : option exn;
  execute_fault : option exn;
  fetchall_fault : option exn;
  RIS_WORKLIST_VIEW : list row
}.

Module Sql.

(** ['(^|,)' || :aetitle || '(,|$)'] *)
Definition pattern (aetitle : string) : string :=
  "(^|,)" ++ aetitle ++ "(,|$)".

(** Position of the AETitle column in the select list. *)
Definition AETitle_column : nat := 18.
(** Position of the HOUR column in the select list. *)
Definition HOUR_column : nat := 4.

(** The WHERE clause on one row.  A NULL list (Oracle also reads the empty
    string as NULL) satisfies no condition. *)
Definition where_clause (re : Regex.regex) (r : row) : bool :=
  match nth_error r AETitle_column with
  | Some (PyStr aetitles) =>
      negb (PyStr.is_empty aetitles) && Regex.search aetitles re
  | _ => false
  end.

Definition pyval_eqb (a b : pyval) : bool :=
  match a, b with
  | PyNone, PyNone => true
  | PyInt x, PyInt y => (x =? y)%Z
  | PyStr x, PyStr y => String.eqb x y
  | PyDateTime y1 m1 d1 h1 i1 s1, PyDateTime y2 m2 d2 h2 i2 s2 =>
      (y1 =? y2)%Z && (m1 =? m2)%Z && (d1 =? d2)%Z
      && (h1 =? h2)%Z && (i1 =? i2)%Z && (s1 =? s2)%Z
  | _, _ => false
  end.

Fixpoint row_eqb (a b : row) : bool :=
  match a, b with
  | [], [] => true
  | x :: a', y :: b' => pyval_eqb x y && row_eqb a' b'
  | _, _ => false
  end.

(** SELECT DISTINCT: one copy of each row. *)
Fixpoint distinct (rows : list row) : list row :=
  match rows with
  | [] => []
  | r :: rest => r :: filter (fun r' => negb (row_eqb r r')) (distinct rest)
  end.

(** The order of two keys field by field, the first fields first. *)
Fixpoint fields_le (a b : list Z) : bool :=
  match a, b with
  | [], _ => true
  | _ :: _, [] => false
  | x :: a', y :: b' => (x <? y)%Z || ((x =? y)%Z && fields_le a' b')
  end.

(** Ascending order of the HOUR keys: binary order on text, the order of
    the numbers, the order in time of dates, NULL last.  The keys of one
    column are of one type. *)
Definition hour_le (a b : row) : bool :=
  match nth_error a HOUR_column, nth_error b HOUR_column with
  | Some (PyStr x), Some (PyStr y) => (x <=? y)%string
  | Some (PyInt x), Some (PyInt y) => (x <=? y)%Z
  | Some (PyDateTime y1 m1 d1 h1 i1 s1), Some (PyDateTime y2 m2 d2 h2 i2 s2) =>
      fields_le [y1; m1; d1; h1; i1; s1] [y2; m2; d2; h2; i2; s2]
  | Some PyNone, Some PyNone => true
  | Some PyNone, _ => false
  | _, _ => true
  end.

Fixpoint insert_by_hour (r : row) (sorted : list row) : list row :=
  match sorted with
  | [] => [r]
  | x :: rest => if hour_le r x then r :: sorted else x :: insert_by_hour r rest
  end.

(** ORDER BY HOUR ASC *)
Definition order_by_hour (rows : list row) : list row :=
  fold_right insert_by_hour [] rows.

(** The statement of the source run against the view: a pattern the
    regular-expression engine refuses is a database error (ORA-12725 and
    its kin). *)
Definition run_query (view : list row) (aetitle : string) : result (list row) :=
  match Regex.parse (pattern aetitle) with
  | None => Raise (DatabaseError "ORA-12725: unmatched parentheses in regular expression" 12725)
  | Some re => Ok (order_by_hour (distinct (filter (where_clause re) view)))
  end.

End Sql.

(* ===================================================================== *)
(** * Code that touches the outside world *)
(* ===================================================================== *)

(** What the program acquires and gives back, in the order it happens. *)
Inductive event : Type :=
| ConnOpened
| CursorOpened
| CursorClosed
| ConnClosed
| AssocEstablished
| AssocReleased.

Definition trace : Type := list event.

Definition event_eqb (a b : event) : bool :=
  match a, b with
  | ConnOpened, ConnOpened | CursorOpened, CursorOpened
  | CursorClosed, CursorClosed | ConnClosed, ConnClosed
  | AssocEstablished, AssocEstablished | AssocReleased, AssocReleased => true
  | _, _ => false
  end.

Definition occurrences (e : event) (t : trace) : nat :=
  length (filter (event_eqb e) t).

(** Every acquisition recorded in [t] has its release in [t]. *)
Definition all_released (t : trace) : Prop :=
  occurrences ConnClosed t = occurrences ConnOpened t
  /\ occurrences CursorClosed t = occurrences CursorOpened t
  /\ occurrences AssocReleased t = occurrences AssocEstablished t.

(** A computation over a state [S] that returns or raises. *)
Definition M (S A : Type) : Type := S -> result A * S.

#[global] Instance M_monad (S : Type) : Monad (M S) := {
  ret := fun A a s => (Ok a, s);
  bind := fun A B m k s =>
    match m s with
    | (Ok a, s') => k a s'
    | (Raise e, s') => (Raise e, s')
    end
}.

Section Effects.
Context {S : Type}.

Definition raise {A} (e : exn) : M S A := fun s => (Raise e, s).

Definition get : M S S := fun s => (Ok s, s).

Definition modify (f : S -> S) : M S unit := fun s => (Ok tt, f s).

(** An external call whose outcome the environment fixes. *)
Definition call (fault : option exn) : M S unit :=
  match fault with
  | Some e => raise e
  | None => ret tt
  end.

Definition lift {A} (r : result A) : M S A := fun s => (r, s).

(** [try: body / except Exception as e: handler e] *)
Definition try_except {A} (body : M S A) (handler : exn -> M S A) : M S A :=
  fun s =>
    match body s with
    | (Ok a, s') => (Ok a, s')
    | (Raise e, s') => handler e s'
    end.

(** [try: body / finally: cleanup]: the cleanup runs on every exit of the
    body; an exception of the cleanup replaces the outcome of the body. *)
Definition try_finally {A} (body : M S A) (cleanup : M S unit) : M S A :=
  fun s =>
    match body s with
    | (r, s') =>
        match cleanup s' with
        | (Ok _, s'') => (r, s'')
        | (Raise e, s'') => (Raise e, s'')
        end
    end.
End Effects.

(* ===================================================================== *)
(** * get_worklist_from_db *)
(* ===================================================================== *)

(** The locals [conn] and [cursor] of the function ([None] until assigned)
    beside the trace of the world. *)
Record db_frame : Type := {
  conn : option unit;
  cursor : option unit;
  world : trace
}.

Definition emit (e : event) : M db_frame unit :=
  modify (fun f => {| conn := conn f; cursor := cursor f;
                      world := (world f ++ [e])%list |}).

Definition set_conn : M db_frame unit :=
  modify (fun f => {| conn := Some tt; cursor := cursor f; world := world f |}).

Definition set_cursor : M db_frame unit :=
  modify (fun f => {| conn := conn f; cursor := Some tt; world := world f |}).

Section Query.
Variable db : OracleDb.

(** The body of the [try] (lines 75-114). *)
Definition query_body (requestor_ae : string) : M db_frame (list row) :=
  call (makedsn_fault db) ;;;
  call (connect_fault db) ;;;
  emit ConnOpened ;;;
  set_conn ;;;
  call (cursor_fault db) ;;;
  emit CursorOpened ;;;
  set_cursor ;;;
  call (execute_fault db) ;;;
  rows <- lift (Sql.run_query (RIS_WORKLIST_VIEW db) requestor_ae) ;;
  call (fetchall_fault db) ;;;
  ret rows.

(** The two [except] clauses (lines 116-122): both return [[]]. *)
Definition query_handler (e : exn) : M db_frame (list row) :=
  match e with
  | DatabaseError _ _ => ret []
  | PyException _ => ret []
  end.

(** The [finally] clause (lines 123-127).  Closing an open handle is the
    driver's release operation and is taken to complete. *)
Definition query_cleanup : M db_frame unit :=
  f <- get ;;
  (match cursor f with Some _ => emit CursorClosed | None => ret tt end) ;;;
  match conn f with Some _ => emit ConnClosed | None => ret tt end.

Definition get_worklist_from_db (requestor_ae : string) : M trace (list row) :=
  fun w =>
    let '(r, f) :=
      try_finally (try_except (query_body requestor_ae) query_handler)
                  query_cleanup
                  {| conn := None; cursor := None; world := w |} in
    (r, world f).
End Query.

(* ===================================================================== *)
(** * handle_find, handle_echo *)
(* ===================================================================== *)

Definition STATUS_SUCCESS : Z := 0x0000.
Definition STATUS_PENDING : Z := 0xFF00.

(** One element of the list [handle_find] returns: a status and the
    dataset that goes with it, if any. *)
Definition response : Type := (Z * option Dataset)%type.

(** The [for] loop (lines 141-190), [responses] being the list so far. *)
Fixpoint find_loop (responses : list response) (worklist_entries : list row)
  : result (list response) :=
  match worklist_entries with
  | [] => Ok responses
  | r :: rest =>
      ds <- build_dataset r ;;
      find_loop (responses ++ [(STATUS_PENDING, Some ds)])%list rest
  end.

Definition handle_find (db : OracleDb) (requestor_ae : string)
  : M trace (list response) :=
  worklist_entries <- get_worklist_from_db db requestor_ae ;;
  match worklist_entries with
  | [] => ret [(STATUS_SUCCESS, None)]
  | _ :: _ => lift (find_loop [] worklist_entries)
  end.

Definition handle_echo (requestor_ae : string) : Z := STATUS_SUCCESS.

(** What the requestor is sent during one Find transaction. *)
Inductive find_message : Type :=
| Pending (identifier : option Dataset)
| Final (status : Z).

(** The status the find service gives when it cannot encode a dataset of
    the handler. *)
Definition STATUS_CANNOT_ENCODE : Z := 0xC312.

(** pydicom's writer of an element of text takes a text or an empty value
    ([None]); on any other value it raises. *)
Definition writes_as_text (v : pyval) : bool :=
  match v with
  | PyNone | PyStr _ => true
  | PyInt _ | PyDateTime _ _ _ _ _ _ => false
  end.

Definition step_encodes (step : ScheduledStep) : bool :=
  writes_as_text (ScheduledProcedureStepDescription step)
  && writes_as_text (Modality step)
  && writes_as_text (ScheduledStationAETitle step).

(** The elements of the dataset can be written: those the builder assigns
    as text can, the others when they hold a text or nothing. *)
Definition encodes (ds : Dataset) : bool :=
  writes_as_text (PatientSex ds)
  && writes_as_text (RequestedProcedureDescription ds)
  && writes_as_text (ReferringPhysicianName ds)
  && forallb step_encodes (ScheduledProcedureStepSequence ds).

(** The find service of the protocol engine (pynetdicom), an external
    collaborator that is not part of the repository, modelled from the
    spec and from what the library does with the list of the handler.  It
    encodes and sends each pending-tagged dataset as it comes; a dataset
    it cannot encode ends the transaction with a failure status, and so
    does a status that is not pending, with that status; when the handler
    has nothing more to give, "the session implicitly concludes with a
    final success status". *)
Fixpoint find_session (responses : list response) : list find_message :=
  match responses with
  | [] => [Final STATUS_SUCCESS]
  | (status, identifier) :: rest =>
      if (status =? STATUS_PENDING)%Z then
        match identifier with
        | Some ds =>
            if encodes ds then Pending identifier :: find_session rest
            else [Final STATUS_CANNOT_ENCODE]
        | None => [Final STATUS_CANNOT_ENCODE]
        end
      else [Final status]
  end.

(* ===================================================================== *)
(** * handle_store *)
(* ===================================================================== *)

Definition STATUS_UNABLE_TO_UNDERSTAND : Z := 0xC000.
Definition STATUS_OUT_OF_RESOURCES : Z := 0xC001.
Definition STATUS_UNABLE_TO_PROCESS : Z := 0xC002.

(** The status dataset [send_c_store] returns: its elements by keyword.
    It is empty when the peer timed out, aborted or answered nonsense. *)
Definition StatusDataset : Type := list (string * Z).

Definition dataset_truthy (status : StatusDataset) : bool :=
  match status with [] => false | _ :: _ => true end.

(** The downstream node and the forwarding entity, by how each call of
    the handler on them turns out. *)
Record Downstream : Type := {
  forward_ae_fault : option exn;
  add_requested_context_fault : option exn;
  associate_outcome : result bool;
  has_file_meta : result bool;
  set_file_meta_fault : option exn;
  send_c_store_outcome : result StatusDataset;
  release_fault : option exn
}.

(** What the handler hands back to the engine: the status dataset of the
    downstream node, or a status code of its own. *)
Inductive store_return : Type :=
| ReturnDataset (status : StatusDataset)
| ReturnCode (code : Z).

Definition mark (e : event) : M trace unit :=
  modify (fun t => (t ++ [e])%list).

Section Store.
Variable node : Downstream.

(** The body of the [try] (lines 204-226); [None] when control falls out
    of it without a [return]. *)
Definition store_body : M trace (option store_return) :=
  call (forward_ae_fault node) ;;;
  call (add_requested_context_fault node) ;;;
  is_established <- lift (associate_outcome node) ;;
  if is_established : bool then
    mark AssocEstablished ;;;
    has <- lift (has_file_meta node) ;;
    (if has : bool then ret tt else call (set_file_meta_fault node)) ;;;
    status <- lift (send_c_store_outcome node) ;;
    call (release_fault node) ;;;
    mark AssocReleased ;;;
    if dataset_truthy status then ret (Some (ReturnDataset status))
    else ret (Some (ReturnCode STATUS_OUT_OF_RESOURCES))
  else ret None.

Definition handle_store : M trace store_return :=
  returned <- try_except store_body
                (fun _ => ret (Some (ReturnCode STATUS_UNABLE_TO_PROCESS))) ;;
  match returned with
  | Some r => ret r
  | None => ret (ReturnCode STATUS_UNABLE_TO_UNDERSTAND)
  end.
End Store.

(** A view and environments used in the examples below. *)
Definition healthy_db (view : list row) : OracleDb :=
  {| makedsn_fault := None; connect_fault := None; cursor_fault := None;
     execute_fault := None; fetchall_fault := None;
     RIS_WORKLIST_VIEW := view |}.

Definition healthy_node (status : StatusDataset) : Downstream :=
  {| forward_ae_fault := None; add_requested_context_fault := None;
     associate_outcome := Ok true; has_file_meta := Ok true;
     set_file_meta_fault := None; send_c_store_outcome := Ok status;
     release_fault := None |}.


(* ===================================================================== *)
(** * Vocabulary of the specification *)
(* ===================================================================== *)

(** [s] with [f] applied to each character. *)
Fixpoint map_chars (f : ascii -> ascii) (s : string) : string :=
  match s with
  | EmptyString => EmptyString
  | String c rest => String (f c) (map_chars f rest)
  end.

Definition underscore_to_period (c : ascii) : ascii :=
  if Ascii.eqb c "_" then "."%char else c.

(** Some step of the retrieval raises: building the address, connecting,
    opening the cursor, executing (a fault of the driver or a statement
    the server refuses) or fetching. *)
Definition retrieval_fails (db : OracleDb) (requestor_ae : string) : Prop :=
  makedsn_fault db <> None
  \/ connect_fault db <> None
  \/ cursor_fault db <> None
  \/ execute_fault db <> None
  \/ (exists e, Sql.run_query (RIS_WORKLIST_VIEW db) requestor_ae = Raise e)
  \/ fetchall_fault db <> None.

(** Every step of the retrieval completes and no row matches. *)
Definition no_rows_match (db : OracleDb) (requestor_ae : string) : Prop :=
  makedsn_fault db = None /\ connect_fault db = None
  /\ cursor_fault db = None /\ execute_fault db = None
  /\ fetchall_fault db = None
  /\ Sql.run_query (RIS_WORKLIST_VIEW db) requestor_ae = Ok [].

(** The forwarding entity is set up without a fault. *)
Definition forwarder_ready (node : Downstream) : Prop :=
  forward_ae_fault node = None /\ add_requested_context_fault node = None.

(** The association is established and everything up to and including
    its release completes, the transfer returning [status]. *)
Definition relay_completes (node : Downstream) (status : StatusDataset) : Prop :=
  forwarder_ready node
  /\ associate_outcome node = Ok true
  /\ (has_file_meta node = Ok true
      \/ (has_file_meta node = Ok false /\ set_file_meta_fault node = None))
  /\ send_c_store_outcome node = Ok status
  /\ release_fault node = None.

(** Some call of the handler that is reached raises. *)
Definition relay_raises (node : Downstream) : Prop :=
  forward_ae_fault node <> None
  \/ (forward_ae_fault node = None /\ add_requested_context_fault node <> None)
  \/ (forwarder_ready node /\ exists e, associate_outcome node = Raise e)
  \/ (forwarder_ready node /\ associate_outcome node = Ok true
      /\ ((exists e, has_file_meta node = Raise e)
          \/ (has_file_meta node = Ok false /\ set_file_meta_fault node <> None)
          \/ (exists e, send_c_store_outcome node = Raise e)
          \/ release_fault node <> None)).

(** The four ways a push ends, as the handler classifies them. *)
Inductive push_outcome (node : Downstream) : store_return -> Prop :=
| relayed (status : StatusDataset) :
    relay_completes node status -> status <> [] ->
    push_outcome node (ReturnDataset status)
| no_status :
    relay_completes node [] ->
    push_outcome node (ReturnCode STATUS_OUT_OF_RESOURCES)
| not_established :
    forwarder_ready node -> associate_outcome node = Ok false ->
    push_outcome node (ReturnCode STATUS_UNABLE_TO_UNDERSTAND)
| exception_raised :
    relay_raises node ->
    push_outcome node (ReturnCode STATUS_UNABLE_TO_PROCESS).

(** The columns the builder writes to elements of text as they are (sex,
    specialty, study description, endpoint list) hold a text or nothing. *)
Definition text_columns (r : row) : bool :=
  forallb (fun k => match nth_error r k with
                    | Some v => writes_as_text v
                    | None => false
                    end)
          [6; 8; 9; 18].

(** The dataset-tagged responses of a list of datasets. *)
Definition pending_responses (dss : list Dataset) : list response :=
  map (fun ds => (STATUS_PENDING, Some ds)) dss.

(** The trace one run of the query adds when every handle gets opened. *)
Definition full_query_trace : trace :=
  [ConnOpened; CursorOpened; CursorClosed; ConnClosed].

(** ** Concrete environments *)

(** The downstream node rejects the association. *)
Definition refusing_node : Downstream :=
  {| forward_ae_fault := None; add_requested_context_fault := None;
     associate_outcome := Ok false; has_file_meta := Ok true;
     set_file_meta_fault := None; send_c_store_outcome := Ok [];
     release_fault := None |}.

(** The association is established and the transfer raises (the dataset
    cannot be encoded for the negotiated syntax). *)
Definition crashing_node : Downstream :=
  {| forward_ae_fault := None; add_requested_context_fault := None;
     associate_outcome := Ok true; has_file_meta := Ok true;
     set_file_meta_fault := None;
     send_c_store_outcome := Raise (PyException "ValueError");
     release_fault := None |}.

(** Nobody listens at the database address. *)
Definition unreachable_db : OracleDb :=
  {| makedsn_fault := None;
     connect_fault := Some (DatabaseError "ORA-12541: TNS:no listener" 12541);
     cursor_fault := None; execute_fault := None; fetchall_fault := None;
     RIS_WORKLIST_VIEW := [sample_row] |}.


(** [sample_row] scheduled for the endpoints AE10 and AE2. *)
Definition row_for_AE10 : row :=
  [ PyStr "MARIA ELENA GARCIA LOPEZ"; PyStr "P-77"; PyInt 5;
    PyDateTime 2024 3 9 0 0 0; PyStr "08:30"; PyDateTime 1980 12 1 0 0 0;
    PyStr "F"; PyInt 12; PyStr "CR"; PyStr "CHEST PA";
    PyInt 4711; PyStr "DR HOUSE"; PyInt 99; PyStr "R1";
    PyInt 1; PyStr "A"; PyStr "CENTRAL"; PyStr "MX_0042_7";
    PyStr "AE10,AE2"; PyStr "ACC-1"; PyStr "AM" ].

(* ===================================================================== *)
(** * Start-up: the two configuration files (lines 29-68) *)
(* ===================================================================== *)

Module Config.

(** What [json.load] returns.  Numbers are the integers; an object keeps
    its members in the order of the file. *)
#[local] Unset Elimination Schemes.
Inductive json : Type :=
| JNull
| JBool (b : bool)
| JNumber (z : Z)
| JString (s : string)
| JArray (items : list json)
| JObject (members : list (string * json)).
#[local] Set Elimination Schemes.

Definition KeyError : exn := PyException "KeyError".

(** The value of [key] in the dict built from [members]: a key written
    twice keeps its last value. *)
Fixpoint member (key : string) (members : list (string * json)) : option json :=
  match members with
  | [] => None
  | (k, v) :: rest =>
      match member key rest with
      | Some later => Some later
      | None => if String.eqb k key then Some v else None
      end
  end.

(** [v[key]] for a string [key]: a dict answers or raises [KeyError];
    nothing else can be indexed by a string. *)
Definition subscript (v : json) (key : string) : result json :=
  match v with
  | JObject members =>
      match member key members with
      | Some x => Ok x
      | None => Raise KeyError
      end
  | _ => Raise TypeError
  end.

(** How opening and decoding each file turns out. *)
Record Files : Type := {
  db_config_json : result json;
  forward_orthanc_connection_json : result json
}.

(** The module-level names the start-up code binds ([None]: not bound yet). *)
Record globals : Type := {
  ORACLE_HOST : option json;
  ORACLE_PORT : option json;
  ORACLE_SERVICE_NAME : option json;
  ORACLE_USERNAME : option json;
  ORACLE_PASSWORD : option json;
  ORTHANC_HOST : option json;
  ORTHANC_PORT : option json;
  ORTHANC_AET : option json
}.

Definition unbound : globals :=
  {| ORACLE_HOST := None; ORACLE_PORT := None; ORACLE_SERVICE_NAME := None;
     ORACLE_USERNAME := None; ORACLE_PASSWORD := None;
     ORTHANC_HOST := None; ORTHANC_PORT := None; ORTHANC_AET := None |}.

Definition set_ORACLE_HOST (v : json) : M globals unit :=
  modify (fun g =>
    {| ORACLE_HOST := Some v; ORACLE_PORT := ORACLE_PORT g;
       ORACLE_SERVICE_NAME := ORACLE_SERVICE_NAME g;
       ORACLE_USERNAME := ORACLE_USERNAME g;
       ORACLE_PASSWORD := ORACLE_PASSWORD g; ORTHANC_HOST := ORTHANC_HOST g;
       ORTHANC_PORT := ORTHANC_PORT g; ORTHANC_AET := ORTHANC_AET g |}).

Definition set_ORACLE_PORT (v : json) : M globals unit :=
  modify (fun g =>
    {| ORACLE_HOST := ORACLE_HOST g; ORACLE_PORT := Some v;
       ORACLE_SERVICE_NAME := ORACLE_SERVICE_NAME g;
       ORACLE_USERNAME := ORACLE_USERNAME g;
       ORACLE_PASSWORD := ORACLE_PASSWORD g; ORTHANC_HOST := ORTHANC_HOST g;
       ORTHANC_PORT := ORTHANC_PORT g; ORTHANC_AET := ORTHANC_AET g |}).

Definition set_ORACLE_SERVICE_NAME (v : json) : M globals unit :=
  modify (fun g =>
    {| ORACLE_HOST := ORACLE_HOST g; ORACLE_PORT := ORACLE_PORT g;
       ORACLE_SERVICE_NAME := Some v;
       ORACLE_USERNAME := ORACLE_USERNAME g;
       ORACLE_PASSWORD := ORACLE_PASSWORD g; ORTHANC_HOST := ORTHANC_HOST g;
       ORTHANC_PORT := ORTHANC_PORT g; ORTHANC_AET := ORTHANC_AET g |}).

Definition set_ORACLE_USERNAME (v : json) : M globals unit :=
  modify (fun g =>
    {| ORACLE_HOST := ORACLE_HOST g; ORACLE_PORT := ORACLE_PORT g;
       ORACLE_SERVICE_NAME := ORACLE_SERVICE_NAME g;
       ORACLE_USERNAME := Some v;
       ORACLE_PASSWORD := ORACLE_PASSWORD g; ORTHANC_HOST := ORTHANC_HOST g;
       ORTHANC_PORT := ORTHANC_PORT g; ORTHANC_AET := ORTHANC_AET g |}).

Definition set_ORACLE_PASSWORD (v : json) : M globals unit :=
  modify (fun g =>
    {| ORACLE_HOST := ORACLE_HOST g; ORACLE_PORT := ORACLE_PORT g;
       ORACLE_SERVICE_NAME := ORACLE_SERVICE_NAME g;
       ORACLE_USERNAME := ORACLE_USERNAME g;
       ORACLE_PASSWORD := Some v; ORTHANC_HOST := ORTHANC_HOST g;
       ORTHANC_PORT := ORTHANC_PORT g; ORTHANC_AET := ORTHANC_AET g |}).

Definition set_ORTHANC_HOST (v : json) : M globals unit :=
  modify (fun g =>
    {| ORACLE_HOST := ORACLE_HOST g; ORACLE_PORT := ORACLE_PORT g;
       ORACLE_SERVICE_NAME := ORACLE_SERVICE_NAME g;
       ORACLE_USERNAME := ORACLE_USERNAME g;
       ORACLE_PASSWORD := ORACLE_PASSWORD g; ORTHANC_HOST := Some v;
       ORTHANC_PORT := ORTHANC_PORT g; ORTHANC_AET := ORTHANC_AET g |}).

Definition set_ORTHANC_PORT (v : json) : M globals unit :=
  modify (fun g =>
    {| ORACLE_HOST := ORACLE_HOST g; ORACLE_PORT := ORACLE_PORT g;
       ORACLE_SERVICE_NAME := ORACLE_SERVICE_NAME g;
       ORACLE_USERNAME := ORACLE_USERNAME g;
       ORACLE_PASSWORD := ORACLE_PASSWORD g; ORTHANC_HOST := ORTHANC_HOST g;
       ORTHANC_PORT := Some v; ORTHANC_AET := ORTHANC_AET g |}).

Definition set_ORTHANC_AET (v : json) : M globals unit :=
  modify (fun g =>
    {| ORACLE_HOST := ORACLE_HOST g; ORACLE_PORT := ORACLE_PORT g;
       ORACLE_SERVICE_NAME := ORACLE_SERVICE_NAME g;
       ORACLE_USERNAME := ORACLE_USERNAME g;
       ORACLE_PASSWORD := ORACLE_PASSWORD g; ORTHANC_HOST := ORTHANC_HOST g;
       ORTHANC_PORT := ORTHANC_PORT g; ORTHANC_AET := Some v |}).

(** Lines 30-44: the database file is loaded, a failure being logged and
    raised again, and the five Oracle settings are read out of it with no
    handler around them. *)
Definition load_oracle (files : Files) : M globals unit :=
  config <- try_except (lift (db_config_json files)) (fun e => raise e) ;;
  oracle_config <- lift (subscript config "oracle") ;;
  host <- lift (subscript oracle_config "host") ;;
  set_ORACLE_HOST host ;;;
  port <- lift (subscript oracle_config "port") ;;
  set_ORACLE_PORT port ;;;
  service_name <- lift (subscript oracle_config "service_name") ;;
  set_ORACLE_SERVICE_NAME service_name ;;;
  username <- lift (subscript oracle_config "username") ;;
  set_ORACLE_USERNAME username ;;;
  password <- lift (subscript oracle_config "password") ;;
  set_ORACLE_PASSWORD password.

(** Lines 49-55: the forwarding file, or the empty dict when it cannot be
    loaded. *)
Definition load_orthanc_config (files : Files) : M globals json :=
  try_except (lift (forward_orthanc_connection_json files))
             (fun _ => ret (JObject [])).

(** Lines 58-68: the three settings of the downstream node, or the
    defaults when any of them cannot be read. *)
Definition extract_orthanc (orthanc_config : json) : M globals unit :=
  try_except
    (ORTHANC <- lift (subscript orthanc_config "orthanc") ;;
     host <- lift (subscript ORTHANC "host") ;;
     set_ORTHANC_HOST host ;;;
     port <- lift (subscript ORTHANC "port") ;;
     set_ORTHANC_PORT port ;;;
     ae_title <- lift (subscript ORTHANC "ae_title") ;;
     set_ORTHANC_AET ae_title)
    (fun _ =>
       set_ORTHANC_HOST (JString "localhost") ;;;
       set_ORTHANC_PORT (JNumber 4242) ;;;
       set_ORTHANC_AET (JString "ORTHANC")).

(** The module body up to the definitions of the handlers: a raise here
    ends the process before the server starts. *)
Definition module_init (files : Files) : M globals unit :=
  load_oracle files ;;;
  orthanc_config <- load_orthanc_config files ;;
  extract_orthanc orthanc_config.

(** The five Oracle settings as the database file gives them. *)
Definition oracle_settings (files : Files)
  : result (json * json * json * json * json) :=
  config <- db_config_json files ;;
  oracle_config <- subscript config "oracle" ;;
  host <- subscript oracle_config "host" ;;
  port <- subscript oracle_config "port" ;;
  service_name <- subscript oracle_config "service_name" ;;
  username <- subscript oracle_config "username" ;;
  password <- subscript oracle_config "password" ;;
  ret (host, port, service_name, username, password).

(** The three settings of the downstream node as a loaded file gives them. *)
Definition orthanc_settings (orthanc_config : json) : result (json * json * json) :=
  ORTHANC <- subscript orthanc_config "orthanc" ;;
  host <- subscript ORTHANC "host" ;;
  port <- subscript ORTHANC "port" ;;
  ae_title <- subscript ORTHANC "ae_title" ;;
  ret (host, port, ae_title).

Definition orthanc_defaults : json * json * json :=
  (JString "localhost", JNumber 4242, JString "ORTHANC").

(** The settings of the downstream node a state binds. *)
Definition orthanc_bound (g : globals) : option json * option json * option json :=
  (ORTHANC_HOST g, ORTHANC_PORT g, ORTHANC_AET g).

Definition oracle_bound (g : globals)
  : option json * option json * option json * option json * option json :=
  (ORACLE_HOST g, ORACLE_PORT g, ORACLE_SERVICE_NAME g, ORACLE_USERNAME g,
   ORACLE_PASSWORD g).

(** The forwarding file as the start-up code holds it. *)
Definition loaded_orthanc_config (files : Files) : json :=
  match forward_orthanc_connection_json files with
  | Ok v => v
  | Raise _ => JObject []
  end.

(** ** Concrete files *)

Definition good_db_config : json :=
  JObject [("oracle",
            JObject [("host", JString "db.example"); ("port", JNumber 1521);
                     ("service_name", JString "RIS");
                     ("username", JString "mwl");
                     ("password", JString "secret")])].

(** A forwarding file that names the host and the port and forgets the
    title. *)
Definition orthanc_config_without_title : json :=
  JObject [("orthanc",
            JObject [("host", JString "pacs.example"); ("port", JNumber 11112)])].

Definition good_orthanc_config : json :=
  JObject [("orthanc",
            JObject [("host", JString "pacs.example"); ("port", JNumber 11112);
                     ("ae_title", JString "PACS")])].

End Config.

(* ===================================================================== *)
(** * More vocabulary *)
(* ===================================================================== *)

(** No character of [s] is [c]. *)
Definition free_of (c : ascii) (s : string) : bool :=
  PyStr.all_chars (fun d => negb (Ascii.eqb d c)) s.

(** [s] without its characters [c]. *)
Fixpoint without_char (c : ascii) (s : string) : string :=
  match s with
  | EmptyString => EmptyString
  | String d rest =>
      if Ascii.eqb d c then without_char c rest
      else String d (without_char c rest)
  end.

(** No character of [s] is whitespace. *)
Definition free_of_space (s : string) : bool :=
  PyStr.all_chars (fun c => negb (PyStr.is_space c)) s.

(** A token: not empty, and free of whitespace. *)
Definition is_token (t : string) : Prop :=
  t <> EmptyString /\ free_of_space t = true.

(** The ascending order of two rows by their HOUR keys. *)
Definition hour_ordered (a b : row) : Prop := Sql.hour_le a b = true.

(** The traces one run of the query can add. *)
Definition query_traces : list trace :=
  [ []; [ConnOpened; ConnClosed]; full_query_trace ].

(** The traces one run of the store forwarder can add. *)
Definition store_traces : list trace :=
  [ []; [AssocEstablished]; [AssocEstablished; AssocReleased] ].

(** A date of four-digit year, as [datetime] can hold one. *)
Definition valid_date (v : pyval) : Prop :=
  match v with
  | PyDateTime year month day _ _ _ =>
      (1000 <= year <= 9999)%Z /\ (1 <= month <= 12)%Z /\ (1 <= day <= 31)%Z
  | _ => False
  end.

(** The exceptions a row can make the builder raise. *)
Definition builder_exceptions : list exn :=
  [IndexError; AttributeError; TypeError].

(** [r] with its column [k] replaced by [v]. *)
Fixpoint set_column (k : nat) (v : pyval) (r : row) : row :=
  match r, k with
  | [], _ => []
  | _ :: rest, O => v :: rest
  | x :: rest, S k' => x :: set_column k' v rest
  end.


(** [sample_row] one hour later, for another patient. *)
Definition later_row : row :=
  [ PyStr "JOSE PEREZ"; PyStr "P-78"; PyInt 6;
    PyDateTime 2024 3 9 0 0 0; PyStr "09:30"; PyDateTime 1975 1 31 0 0 0;
    PyStr "M"; PyInt 12; PyStr "CR"; PyStr "KNEE";
    PyInt 4712; PyNone; PyInt 0; PyStr "R1";
    PyInt 1; PyStr "A"; PyStr "CENTRAL"; PyStr "MX_0043_1";
    PyStr "AE1"; PyStr "ACC-2"; PyStr "AM" ].

(* ===================================================================== *)
(** * Facts about the string operations *)
(* ===================================================================== *)

Module PyStrFacts.
Import PyStr.

Lemma append_empty_r (s : string) : s ++ "" = s.
Proof. induction s as [|c s IH]; simpl; [reflexivity | now rewrite IH]. Qed.

Lemma append_assoc (a b c : string) : (a ++ b) ++ c = a ++ (b ++ c).
Proof. induction a as [|x a IH]; simpl; [reflexivity | now rewrite IH]. Qed.

Lemma length_append (a b : string) :
  String.length (a ++ b) = String.length a + String.length b.
Proof. induction a as [|x a IH]; simpl; [reflexivity | now rewrite IH]. Qed.

Lemma is_empty_true (s : string) : is_empty s = true -> s = "".
Proof. destruct s; simpl; [reflexivity | discriminate]. Qed.

Lemma length_zeros (n : nat) : String.length (zeros n) = n.
Proof. induction n as [|n IH]; simpl; [reflexivity | now rewrite IH]. Qed.

(** ** Counting the characters that are not whitespace *)

Lemma count_nonspace_append (a b : string) :
  count_nonspace (a ++ b) = count_nonspace a + count_nonspace b.
Proof.
  induction a as [|x a IH]; simpl; [reflexivity|].
  rewrite IH. apply Nat.add_assoc.
Qed.

Lemma count_nonspace_lstrip (s : string) :
  count_nonspace (lstrip s) = count_nonspace s.
Proof.
  induction s as [|c s IH]; simpl; [reflexivity|].
  destruct (is_space c) eqn:Hc; simpl; [exact IH | now rewrite Hc].
Qed.

Lemma count_nonspace_rstrip (s : string) :
  count_nonspace (rstrip s) = count_nonspace s.
Proof.
  induction s as [|c s IH]; simpl; [reflexivity|].
  destruct (is_space c) eqn:Hc; simpl.
  - destruct (is_empty (rstrip s)) eqn:He; simpl.
    + apply is_empty_true in He. rewrite He in IH. simpl in IH. exact IH.
    + rewrite Hc. simpl. exact IH.
  - rewrite Hc. simpl. now rewrite IH.
Qed.

Lemma count_nonspace_strip (s : string) :
  count_nonspace (strip s) = count_nonspace s.
Proof.
  unfold strip. now rewrite count_nonspace_rstrip, count_nonspace_lstrip.
Qed.

Lemma total_nonspace_app (l1 l2 : list string) :
  total_nonspace (l1 ++ l2)%list = total_nonspace l1 + total_nonspace l2.
Proof.
  induction l1 as [|p l1 IH]; simpl; [reflexivity|].
  rewrite IH. apply Nat.add_assoc.
Qed.

Lemma total_nonspace_flush (cur : string) :
  total_nonspace (flush cur) = count_nonspace cur.
Proof.
  unfold flush. destruct cur; simpl; [reflexivity | lia].
Qed.

Lemma total_nonspace_split_from (s cur : string) :
  total_nonspace (split_from cur s) = count_nonspace cur + count_nonspace s.
Proof.
  revert cur. induction s as [|c s IH]; intro cur; simpl.
  - rewrite total_nonspace_flush. lia.
  - destruct (is_space c) eqn:Hc.
    + rewrite total_nonspace_app, total_nonspace_flush, IH. simpl. lia.
    + rewrite IH, count_nonspace_append. simpl. rewrite Hc. lia.
Qed.

Lemma total_nonspace_split (s : string) :
  total_nonspace (split s) = count_nonspace s.
Proof. unfold split. now rewrite total_nonspace_split_from. Qed.

Lemma count_nonspace_join (parts : list string) :
  count_nonspace (join " " parts) = total_nonspace parts.
Proof.
  unfold join. induction parts as [|p parts IH]; [reflexivity|].
  destruct parts as [|q parts]; [simpl; lia|].
  change (String.concat " " (p :: q :: parts))
    with (p ++ " " ++ String.concat " " (q :: parts)).
  rewrite !count_nonspace_append, IH. simpl. lia.
Qed.

(** ** Stripping and splitting *)

Lemma split_from_lstrip (s : string) :
  split_from "" (lstrip s) = split_from "" s.
Proof.
  induction s as [|c s IH]; simpl; [reflexivity|].
  destruct (is_space c) eqn:Hc; simpl; [exact IH | now rewrite Hc].
Qed.

Lemma split_from_rstrip (s cur : string) :
  split_from cur (rstrip s) = split_from cur s.
Proof.
  revert cur. induction s as [|c s IH]; intro cur; simpl; [reflexivity|].
  destruct (is_space c) eqn:Hc; simpl.
  - destruct (is_empty (rstrip s)) eqn:He; simpl.
    + apply is_empty_true in He.
      rewrite <- (IH ""), He. simpl. now rewrite app_nil_r.
    + rewrite Hc. now rewrite IH.
  - rewrite Hc. apply IH.
Qed.

(** Splitting the stripped name gives the tokens of the name itself. *)
Lemma split_strip (s : string) : split (strip s) = split s.
Proof.
  unfold split, strip. now rewrite split_from_rstrip, split_from_lstrip.
Qed.

Lemma lstrip_id (s : string) : starts_with_space s = false -> lstrip s = s.
Proof. destruct s as [|c s]; simpl; [reflexivity | now intros ->]. Qed.

Lemma rstrip_id (s : string) : ends_with_space s = false -> rstrip s = s.
Proof.
  induction s as [|c s IH]; [reflexivity|].
  intro H. simpl. destruct s as [|d s].
  - simpl in *. now rewrite H.
  - rewrite IH by exact H. simpl. now rewrite andb_false_r.
Qed.

(** A name with no whitespace at either end is its own stripped form. *)
Lemma strip_id (s : string) :
  starts_with_space s = false -> ends_with_space s = false -> strip s = s.
Proof.
  intros Hl Hr. unfold strip. rewrite (lstrip_id _ Hl). now apply rstrip_id.
Qed.

(** ** Slices at -2 *)

Lemma slice_last_two {A} (l : list A) :
  slice (Some (-2)%Z) None l = skipn (length l - 2) l.
Proof.
  unfold slice, slice_bound. change (-2 <? 0)%Z with true. cbv iota.
  replace (Z.to_nat (Z.max 0 (Z.min (Z.of_nat (length l)) (-2 + Z.of_nat (length l)))))
    with (length l - 2) by lia.
  apply firstn_all2. rewrite length_skipn. lia.
Qed.

Lemma slice_but_last_two {A} (l : list A) :
  slice None (Some (-2)%Z) l = firstn (length l - 2) l.
Proof.
  unfold slice, slice_bound. change (-2 <? 0)%Z with true. cbv iota.
  replace (Z.to_nat (Z.max 0 (Z.min (Z.of_nat (length l)) (-2 + Z.of_nat (length l)))))
    with (length l - 2) by lia.
  now rewrite Nat.sub_0_r.
Qed.

Lemma slices_of_snoc2 {A} (given : list A) (a b : A) :
  slice (Some (-2)%Z) None (given ++ [a; b])%list = [a; b]
  /\ slice None (Some (-2)%Z) (given ++ [a; b])%list = given.
Proof.
  rewrite slice_last_two, slice_but_last_two, length_app. simpl length.
  replace (length given + 2 - 2) with (length given + 0) by lia.
  split.
  - now rewrite skipn_app, Nat.add_0_r, skipn_all, Nat.sub_diag.
  - rewrite firstn_app_2. simpl. apply app_nil_r.
Qed.

(** A list of three or more ends in two elements after a non-empty front. *)
Lemma snoc2_of_three {A} (l : list A) :
  3 <= length l ->
  exists given a b, l = (given ++ [a; b])%list /\ given <> [].
Proof.
  intro H.
  exists (firstn (length l - 2) l).
  destruct (skipn (length l - 2) l) as [|a [|b [|c rest]]] eqn:E;
    pose proof (f_equal (@length A) E) as HL;
    rewrite length_skipn in HL; simpl in HL; try lia.
  exists a, b. split.
  - now rewrite <- E, firstn_skipn.
  - intro Hn. apply (f_equal (@length A)) in Hn.
    rewrite length_firstn in Hn. simpl in Hn. lia.
Qed.

End PyStrFacts.

(* ===================================================================== *)
(** * The response builder *)
(* ===================================================================== *)

Import PyStrFacts.

(** Reading the patient identifier back fails exactly on a backslash. *)
Lemma replace_stored_text (old : ascii) (new s : string) :
  Pydicom.method_replace old new (Pydicom.store_text s)
  = if Pydicom.has_backslash s then Raise AttributeError
    else Ok (PyStr.replace old new s).
Proof.
  unfold Pydicom.store_text. now destruct (Pydicom.has_backslash s).
Qed.

(** The physician is accepted as a person name exactly when the column
    is a text or counts as false. *)
Lemma person_name_physician (v : pyval) :
  Pydicom.person_name (or_default v (PyStr "Unknown"))
  = if names_physician v then Ok (or_default v (PyStr "Unknown"))
    else Raise AttributeError.
Proof.
  destruct v as [|z|s|y mo d h mi sec]; try reflexivity.
  - unfold or_default. simpl. now destruct (z =? 0)%Z.
  - unfold or_default. simpl. now destruct (PyStr.is_empty s).
Qed.

(** Reads one column of a successful build out of its equation. *)
Ltac read_columns H :=
  repeat match type of H with
         | context [item ?r ?k] =>
             unfold item in H at 1;
             let E := fresh "Col" in
             destruct (nth_error r k) eqn:E; simpl in H; [|discriminate H]
         | context [method_strip ?v] =>
             let E := fresh "Name" in
             destruct v eqn:E; simpl in H; try discriminate H
         | context [method_strftime_Ymd ?v] =>
             let E := fresh "Date" in
             destruct v eqn:E; simpl in H; try discriminate H
         | context [method_replace ?a ?b ?v] =>
             let E := fresh "Hour" in
             destruct v eqn:E; simpl in H; try discriminate H
         | context [Pydicom.method_replace _ _ (Pydicom.store_text ?s)] =>
             let E := fresh "Pid" in
             rewrite replace_stored_text in H;
             destruct (Pydicom.has_backslash s) eqn:E; simpl in H;
             [discriminate H|]
         | context [Pydicom.person_name (or_default ?v _)] =>
             let E := fresh "Phys" in
             rewrite !person_name_physician in H;
             destruct (names_physician v) eqn:E; simpl in H;
             [|discriminate H]
         end.

(** What a successful build read from the row and wrote to the attributes
    the properties below are about. *)
Lemma build_dataset_fields (r : row) (ds : Dataset) :
  build_dataset r = Ok ds ->
  exists appointment_id patient_id name aetitle,
    nth_error r 10 = Some appointment_id
    /\ nth_error r 17 = Some patient_id
    /\ nth_error r 0 = Some (PyStr name)
    /\ nth_error r 18 = Some aetitle
    /\ PatientID ds = py_str patient_id
    /\ PatientName ds = normalize_name name ++ " - " ++ py_str aetitle
    /\ AccessionNumber ds = PyStr.zfill 8 (py_str appointment_id)
    /\ RequestedProcedureID ds = PyStr.zfill 6 (py_str appointment_id)
    /\ StudyInstanceUID ds =
         uid_root ++ "." ++ py_str appointment_id ++ "."
         ++ PyStr.replace "_" "." (py_str patient_id)
    /\ (exists step, ScheduledProcedureStepSequence ds = [step]
                     /\ ScheduledStationAETitle step = aetitle).
Proof.
  intro H. unfold build_dataset in H. simpl bind in H.
  read_columns H.
  injection H as <-. simpl.
  eexists _, _, _, _. repeat (split; [reflexivity|]).
  eexists. split; reflexivity.
Qed.

(** A row of the expected column types builds. *)
Lemma build_dataset_sample : is_ok (build_dataset sample_row) = true.
Proof. reflexivity. Qed.

Lemma item_of_nth_error (r : row) (k : nat) (v : pyval) :
  nth_error r k = Some v -> item r k = Ok v.
Proof. unfold item. now intros ->. Qed.

Lemma item_in_range (r : row) (v19 : pyval) (k : nat) :
  nth_error r 19 = Some v19 -> k <= 19 -> exists v, item r k = Ok v.
Proof.
  intros H Hk. unfold item.
  destruct (nth_error r k) as [v|] eqn:E; [now exists v|].
  apply nth_error_None in E.
  assert (nth_error r 19 = None) as Hn by (apply nth_error_None; lia).
  congruence.
Qed.

(** The builder returns a dataset for the shapeable rows and raises on
    every other row. *)
Lemma build_dataset_shapeable (r : row) :
  is_ok (build_dataset r) = true <-> shapeable r = true.
Proof.
  split.
  - destruct (build_dataset r) as [ds|] eqn:H; [intros _|discriminate].
    unfold build_dataset in H. simpl bind in H. read_columns H.
    unfold shapeable.
    repeat match goal with
           | E : nth_error r _ = Some _ |- _ => rewrite E; clear E
           end.
    now rewrite Phys, Pid.
  - unfold shapeable. intro H.
    destruct (nth_error r 0) as [[| |name|]|] eqn:E0; try discriminate H.
    destruct (nth_error r 3) as [[| | |y3 m3 d3 h3 i3 s3]|] eqn:E3;
      try discriminate H.
    destruct (nth_error r 4) as [[| |hour|]|] eqn:E4; try discriminate H.
    destruct (nth_error r 5) as [[| | |y5 m5 d5 h5 i5 s5]|] eqn:E5;
      try discriminate H.
    destruct (nth_error r 11) as [v11|] eqn:E11; try discriminate H.
    destruct (nth_error r 17) as [v17|] eqn:E17; try discriminate H.
    destruct (nth_error r 19) as [v19|] eqn:E19; try discriminate H.
    apply andb_true_iff in H as [Hphys Hpid].
    apply negb_true_iff in Hpid.
    unfold build_dataset. simpl bind.
    rewrite (item_of_nth_error r 0 _ E0), (item_of_nth_error r 3 _ E3),
      (item_of_nth_error r 4 _ E4), (item_of_nth_error r 5 _ E5),
      (item_of_nth_error r 11 _ E11), (item_of_nth_error r 17 _ E17).
    repeat match goal with
           | |- context [item r ?k] =>
               let v := fresh "v" in
               destruct (item_in_range r v19 k E19 ltac:(lia)) as [v ->]
           end.
    simpl. rewrite replace_stored_text, Hpid. simpl.
    rewrite !person_name_physician, Hphys. reflexivity.
Qed.


(** ** Name normalization *)

Lemma format_name_three (full_name : string) (given : list string) (a b : string) :
  PyStr.split full_name = (given ++ [a; b])%list -> given <> [] ->
  format_name full_name = a ++ " " ++ b ++ " " ++ PyStr.join " " given.
Proof.
  intros Hs Hg. unfold format_name. rewrite Hs.
  destruct (slices_of_snoc2 given a b) as [-> ->].
  assert (3 <= length (given ++ [a; b])%list) as Hlen.
  { rewrite length_app. destruct given; [congruence | simpl; lia]. }
  apply Nat.leb_le in Hlen. rewrite Hlen.
  unfold PyStr.join. simpl. now rewrite append_assoc.
Qed.

Lemma format_name_short (full_name : string) :
  length (PyStr.split full_name) < 3 -> format_name full_name = full_name.
Proof.
  intro H. unfold format_name.
  apply Nat.leb_gt in H. now rewrite H.
Qed.

(** The normalization moves characters around and drops whitespace, and
    nothing else. *)
Lemma count_nonspace_normalize_name (name : string) :
  PyStr.count_nonspace (normalize_name name) = PyStr.count_nonspace name.
Proof.
  unfold normalize_name.
  rewrite <- (count_nonspace_strip name).
  generalize (PyStr.strip name). intro full. unfold format_name.
  destruct (3 <=? length (PyStr.split full))%nat eqn:H; [|reflexivity].
  apply Nat.leb_le in H.
  destruct (snoc2_of_three _ H) as (given & a & b & E & _).
  rewrite E. destruct (slices_of_snoc2 given a b) as [-> ->].
  rewrite !count_nonspace_append, !count_nonspace_join.
  rewrite <- (total_nonspace_split full), E, total_nonspace_app.
  simpl. lia.
Qed.

(** C6, as the code has it.  The tokens are those of the name split on
    whitespace.  With three or more of them the normalized name is the
    last two, then the ones before, all joined by single spaces.  With
    fewer than three it is the name stripped of the whitespace at its two
    ends, which is the name itself when it has none there. *)
Theorem name_normalization (name : string) :
  (3 <= length (PyStr.split name) ->
   exists given a b,
     PyStr.split name = (given ++ [a; b])%list /\ given <> []
     /\ normalize_name name = a ++ " " ++ b ++ " " ++ PyStr.join " " given)
  /\ (length (PyStr.split name) < 3 -> normalize_name name = PyStr.strip name)
  /\ (PyStr.starts_with_space name = false ->
      PyStr.ends_with_space name = false ->
      PyStr.strip name = name).
Proof.
  split; [|split].
  - intro H. destruct (snoc2_of_three _ H) as (given & a & b & E & Hg).
    exists given, a, b. repeat split; try assumption.
    unfold normalize_name. apply format_name_three; [|assumption].
    now rewrite split_strip.
  - intro H. unfold normalize_name. apply format_name_short.
    now rewrite split_strip.
  - apply strip_id.
Qed.

(** The two names of the specification: "A B C" has three tokens and
    becomes "B C A"; "A B" has two and stays. *)
Lemma name_normalization_witness :
  normalize_name "A B C" = "B C A" /\ normalize_name "A B" = "A B".
Proof.
  split.
  - destruct (name_normalization "A B C") as [H _].
    destruct (H ltac:(vm_compute; lia)) as (given & a & b & E & _ & ->).
    vm_compute in E.
    destruct given as [|g [|g' given]]; simpl in E.
    + discriminate E.
    + injection E as <- <- <-. reflexivity.
    + exfalso. apply (f_equal (@length string)) in E.
      simpl in E. rewrite length_app in E. simpl in E. lia.
  - destruct (name_normalization "A B") as (_ & H & Hid).
    rewrite (H ltac:(vm_compute; lia)). apply Hid; reflexivity.
Defined.

(** C6 as stated fails on a name of two tokens that starts with a space:
    it does not pass through unchanged, its leading space is dropped. *)
Lemma name_normalization_counterexample :
  length (PyStr.split " A B") < 3
  /\ normalize_name " A B" = "A B"
  /\ normalize_name " A B" <> " A B".
Proof.
  repeat split; [vm_compute; lia | vm_compute; discriminate].
Qed.

(** ** Identifier formatting *)

Lemma digit_is_no_sign (c : ascii) :
  PyStr.is_digit c = true -> PyStr.is_sign c = false.
Proof.
  unfold PyStr.is_digit, PyStr.is_sign. intro H.
  destruct (Ascii.eqb_spec c "+") as [->|_]; [discriminate H|].
  destruct (Ascii.eqb_spec c "-") as [->|_]; [discriminate H|].
  reflexivity.
Qed.

(** Zero-filling a string of digits pads it on the left. *)
Lemma zfill_digits (width : nat) (s : string) :
  PyStr.all_chars PyStr.is_digit s = true ->
  String.length s <= width ->
  PyStr.zfill width s = PyStr.zeros (width - String.length s) ++ s
  /\ String.length (PyStr.zfill width s) = width
  /\ PyStr.all_chars PyStr.is_digit (PyStr.zfill width s) = true.
Proof.
  intros Hd Hl.
  assert (PyStr.zfill width s = PyStr.zeros (width - String.length s) ++ s) as E.
  { unfold PyStr.zfill. destruct (width <=? String.length s)%nat eqn:Hw.
    - apply Nat.leb_le in Hw.
      replace (width - String.length s) with 0 by lia. reflexivity.
    - destruct s as [|c s]; [simpl; now rewrite append_empty_r|].
      simpl in Hd. apply andb_prop in Hd as [Hc _].
      now rewrite (digit_is_no_sign _ Hc). }
  rewrite E. split; [reflexivity|]. split.
  - rewrite length_append, length_zeros. lia.
  - clear E. induction (width - String.length s) as [|n IH]; simpl; assumption.
Qed.

(** *** How integers print *)

Lemma uint_str_digits (d : Decimal.uint) :
  PyStr.all_chars PyStr.is_digit (NilEmpty.string_of_uint d) = true.
Proof. induction d; simpl; try assumption; reflexivity. Qed.

Lemma uint_str_length (d : Decimal.uint) :
  String.length (NilEmpty.string_of_uint d) = Decimal.nb_digits d.
Proof. induction d; simpl; congruence. Qed.

(** Reading digits after an accumulator multiplies it by ten per digit. *)
Lemma of_uint_acc_lower (d : Decimal.uint) :
  forall acc,
    (Z.pos acc * 10 ^ Z.of_nat (Decimal.nb_digits d)
     <= Z.pos (Pos.of_uint_acc d acc))%Z.
Proof.
  induction d as [|d IH|d IH|d IH|d IH|d IH|d IH|d IH|d IH|d IH|d IH];
    intro acc; cbn [Pos.of_uint_acc Decimal.nb_digits].
  1: simpl; lia.
  all: rewrite Nat2Z.inj_succ, Z.pow_succ_r by lia;
       match goal with
       | |- context [Pos.of_uint_acc ?x ?a] =>
           specialize (IH a);
           pose proof (Z.pow_pos_nonneg 10 (Z.of_nat (Decimal.nb_digits x))
                         ltac:(lia) ltac:(lia))
       end;
       nia.
Qed.

(** The decimal form of a positive number starts with a digit that is not
    zero. *)
Lemma to_uint_head (p : positive) :
  Decimal.nzhead (Pos.to_uint p) = Pos.to_uint p.
Proof.
  pose proof (DecimalPos.Unsigned.to_of (Pos.to_uint p)) as H.
  rewrite DecimalPos.Unsigned.of_to in H. simpl in H.
  pose proof (DecimalPos.Unsigned.to_uint_nonzero p) as Hz.
  unfold Decimal.unorm in H.
  destruct (Decimal.nzhead (Pos.to_uint p)) eqn:E; try (symmetry; exact H).
  exfalso. apply Hz. exact H.
Qed.

(** A positive number below 10^n prints in at most n digits. *)
Lemma pos_str_length (p : positive) (n : nat) :
  (Z.pos p < 10 ^ Z.of_nat n)%Z ->
  String.length (NilEmpty.string_of_uint (Pos.to_uint p)) <= n.
Proof.
  intro H. rewrite uint_str_length.
  pose proof (DecimalPos.Unsigned.of_to p) as Hof.
  pose proof (to_uint_head p) as Hhd.
  pose proof (DecimalPos.Unsigned.to_uint_nonnil p) as Hnil.
  destruct (Pos.to_uint p) as [|d|d|d|d|d|d|d|d|d|d] eqn:E;
    [congruence | | | | | | | | | |].
  1: { simpl in Hhd. pose proof (DecimalFacts.nb_digits_nzhead d) as Hle.
       rewrite Hhd in Hle. simpl in Hle. lia. }
  all: cbn [Pos.of_uint] in Hof; injection Hof as Hof;
       cbn [Decimal.nb_digits];
       match type of Hof with
       | Pos.of_uint_acc ?x ?a = _ =>
           pose proof (of_uint_acc_lower x a) as Hlow;
           rewrite Hof in Hlow;
           destruct (Nat.le_gt_cases (S (Decimal.nb_digits x)) n) as [|Hgt];
           [assumption|];
           exfalso;
           assert (10 ^ Z.of_nat n <= 10 ^ Z.of_nat (Decimal.nb_digits x))%Z
             by (apply Z.pow_le_mono_r; lia)
       end;
       nia.
Qed.

(** A non-negative integer prints as decimal digits only. *)
Lemma int_str_digits (z : Z) :
  (0 <= z)%Z -> PyStr.all_chars PyStr.is_digit (int_str z) = true.
Proof.
  intro H. unfold int_str. destruct z as [|p|p]; [reflexivity| |lia].
  unfold Z.to_int, NilZero.string_of_int, NilZero.string_of_uint.
  destruct (Pos.to_uint p) eqn:E; try apply uint_str_digits.
  reflexivity.
Qed.

(** A non-negative integer below 10^n, n > 0, prints in at most n digits. *)
Lemma int_str_length (z : Z) (n : nat) :
  (0 <= z < 10 ^ Z.of_nat n)%Z -> 0 < n -> String.length (int_str z) <= n.
Proof.
  intros [H0 H] Hn. unfold int_str. destruct z as [|p|p]; [simpl; lia| |lia].
  unfold Z.to_int, NilZero.string_of_int, NilZero.string_of_uint.
  pose proof (pos_str_length p n H) as Hlen.
  pose proof (DecimalPos.Unsigned.to_uint_nonnil p) as Hnil.
  destruct (Pos.to_uint p); [congruence | assumption..].
Qed.

(** C7.  For a row whose appointment id prints as at most 8 decimal
    digits, the accession number is the id left-padded with zeros to
    exactly 8 digits; when it prints as at most 6, the requested procedure
    id is the id left-padded with zeros to exactly 6 digits. *)
Theorem identifier_formatting (r : row) (ds : Dataset) (appointment_id : pyval) :
  build_dataset r = Ok ds ->
  nth_error r 10 = Some appointment_id ->
  PyStr.all_chars PyStr.is_digit (py_str appointment_id) = true ->
  let id := py_str appointment_id in
  (String.length id <= 8 ->
   AccessionNumber ds = PyStr.zeros (8 - String.length id) ++ id
   /\ String.length (AccessionNumber ds) = 8
   /\ PyStr.all_chars PyStr.is_digit (AccessionNumber ds) = true)
  /\ (String.length id <= 6 ->
      RequestedProcedureID ds = PyStr.zeros (6 - String.length id) ++ id
      /\ String.length (RequestedProcedureID ds) = 6
      /\ PyStr.all_chars PyStr.is_digit (RequestedProcedureID ds) = true).
Proof.
  intros Hb H10 Hd id.
  destruct (build_dataset_fields r ds Hb)
    as (v10 & v17 & name & v18 & E10 & _ & _ & _ & _ & _ & Hacc & Hproc & _).
  rewrite H10 in E10. injection E10 as E10. subst v10.
  rewrite Hacc, Hproc. split; intro Hl; now apply zfill_digits.
Qed.

Lemma identifier_formatting_witness :
  exists ds,
    build_dataset sample_row = Ok ds
    /\ AccessionNumber ds = "00004711"
    /\ RequestedProcedureID ds = "004711".
Proof.
  destruct (build_dataset sample_row) as [ds|] eqn:Hb; [|discriminate Hb].
  exists ds. split; [reflexivity|].
  destruct (identifier_formatting sample_row ds (PyInt 4711) Hb
              eq_refl eq_refl) as [H8 H6].
  destruct (H8 ltac:(vm_compute; lia)) as [-> _].
  destruct (H6 ltac:(vm_compute; lia)) as [-> _].
  split; reflexivity.
Defined.

(** The same for an appointment id that is an integer: below 10^8 (10^6)
    and not negative, it is padded to exactly 8 (6) digits. *)
Lemma identifier_formatting_int (r : row) (ds : Dataset) (z : Z) :
  build_dataset r = Ok ds ->
  nth_error r 10 = Some (PyInt z) ->
  ((0 <= z < 10 ^ 8)%Z ->
   AccessionNumber ds = PyStr.zeros (8 - String.length (int_str z)) ++ int_str z
   /\ String.length (AccessionNumber ds) = 8)
  /\ ((0 <= z < 10 ^ 6)%Z ->
      RequestedProcedureID ds
      = PyStr.zeros (6 - String.length (int_str z)) ++ int_str z
      /\ String.length (RequestedProcedureID ds) = 6).
Proof.
  intros Hb H10.
  destruct (build_dataset_fields r ds Hb)
    as (v10 & v17 & name & v18 & E10 & _ & _ & _ & _ & _ & Hacc & Hproc & _).
  rewrite H10 in E10. injection E10 as E10. subst v10.
  rewrite Hacc, Hproc. simpl py_str.
  split; intro Hz.
  - destruct (zfill_digits 8 (int_str z)) as (E & L & _);
      [apply int_str_digits; lia | apply int_str_length; simpl; lia | now split].
  - destruct (zfill_digits 6 (int_str z)) as (E & L & _);
      [apply int_str_digits; lia | apply int_str_length; simpl; lia | now split].
Qed.

(** ** Study identifier *)

(** Replacing "_" by "." rewrites each underscore and nothing else. *)
Lemma replace_underscores (s : string) :
  PyStr.replace "_" "." s = map_chars underscore_to_period s.
Proof.
  induction s as [|c s IH]; simpl; [reflexivity|].
  rewrite IH. unfold underscore_to_period.
  destruct (Ascii.eqb c "_"); reflexivity.
Qed.

(** C9.  The study identifier of the built dataset is the fixed root, the
    appointment id and the patient identifier with every underscore turned
    into a period, joined by periods. *)
Theorem study_uid_synthesis (r : row) (ds : Dataset)
    (appointment_id patient_id : pyval) :
  build_dataset r = Ok ds ->
  nth_error r 10 = Some appointment_id ->
  nth_error r 17 = Some patient_id ->
  StudyInstanceUID ds =
    PyStr.join "."
      [uid_root; py_str appointment_id;
       map_chars underscore_to_period (py_str patient_id)].
Proof.
  intros Hb H10 H17.
  destruct (build_dataset_fields r ds Hb)
    as (v10 & v17 & name & v18 & E10 & E17 & _ & _ & _ & _ & _ & _ & Huid & _).
  rewrite H10 in E10. injection E10 as E10. subst v10.
  rewrite H17 in E17. injection E17 as E17. subst v17.
  rewrite Huid, replace_underscores. reflexivity.
Qed.

Lemma study_uid_synthesis_witness :
  exists ds,
    build_dataset sample_row = Ok ds
    /\ StudyInstanceUID ds = "1.2.3.4711.MX.0042.7".
Proof.
  destruct (build_dataset sample_row) as [ds|] eqn:Hb; [|discriminate Hb].
  exists ds. split; [reflexivity|].
  rewrite (study_uid_synthesis sample_row ds (PyInt 4711) (PyStr "MX_0042_7")
             Hb eq_refl eq_refl).
  reflexivity.
Defined.

(** ** Patient name attribute *)

Lemma count_nonspace_differs (a b : string) :
  PyStr.count_nonspace a <> PyStr.count_nonspace b -> a <> b.
Proof. intros H E. apply H. now rewrite E. Qed.

(** C10.  The patient-name attribute of the built dataset is the
    normalized name, the literal " - " and the row's endpoint column (the
    one that also fills the scheduled station of the step).  So the
    attribute is never the normalized name alone, nor the name as the row
    has it, whatever the number of tokens. *)
Theorem patient_name_attribute (r : row) (ds : Dataset)
    (name : string) (aetitle : pyval) :
  build_dataset r = Ok ds ->
  nth_error r 0 = Some (PyStr name) ->
  nth_error r 18 = Some aetitle ->
  PatientName ds = normalize_name name ++ " - " ++ py_str aetitle
  /\ (exists step, ScheduledProcedureStepSequence ds = [step]
                   /\ ScheduledStationAETitle step = aetitle)
  /\ PatientName ds <> normalize_name name
  /\ PatientName ds <> name.
Proof.
  intros Hb H0 H18.
  destruct (build_dataset_fields r ds Hb)
    as (v10 & v17 & name' & v18 & _ & _ & E0 & E18 & _ & Hname & _ & _ & _ & Hstep).
  rewrite H0 in E0. injection E0 as E0. subst name'.
  rewrite H18 in E18. injection E18 as E18. subst v18.
  split; [exact Hname|]. split; [exact Hstep|].
  assert (PyStr.count_nonspace (PatientName ds)
          = PyStr.count_nonspace name + 1
            + PyStr.count_nonspace (py_str aetitle)) as Hcount.
  { rewrite Hname, !count_nonspace_append, count_nonspace_normalize_name.
    simpl. lia. }
  split; apply count_nonspace_differs; rewrite Hcount.
  - rewrite count_nonspace_normalize_name. lia.
  - lia.
Qed.

Lemma patient_name_attribute_witness :
  exists ds,
    build_dataset sample_row = Ok ds
    /\ PatientName ds = "GARCIA LOPEZ MARIA ELENA - AE1,AE2".
Proof.
  destruct (build_dataset sample_row) as [ds|] eqn:Hb; [|discriminate Hb].
  exists ds. split; [reflexivity|].
  destruct (patient_name_attribute sample_row ds "MARIA ELENA GARCIA LOPEZ"
              (PyStr "AE1,AE2") Hb eq_refl eq_refl) as [-> _].
  reflexivity.
Defined.

(* ===================================================================== *)
(** * The schedule query *)
(* ===================================================================== *)

Ltac run_query_steps :=
  unfold get_worklist_from_db, try_finally, try_except, query_body,
    query_handler, query_cleanup, call, raise, lift, emit, set_conn,
    set_cursor, modify, get;
  simpl.

(** When every step completes the query returns the selected rows. *)
Lemma get_worklist_from_db_completes (db : OracleDb) (requestor_ae : string)
    (w : trace) (rows : list row) :
  makedsn_fault db = None -> connect_fault db = None ->
  cursor_fault db = None -> execute_fault db = None ->
  fetchall_fault db = None ->
  Sql.run_query (RIS_WORKLIST_VIEW db) requestor_ae = Ok rows ->
  get_worklist_from_db db requestor_ae w = (Ok rows, (w ++ full_query_trace)%list).
Proof.
  intros H1 H2 H3 H4 H5 Hq. run_query_steps.
  rewrite H1, H2, H3, H4, H5, Hq. simpl.
  now rewrite <- !app_assoc.
Qed.

(** When some step raises the query returns the empty list. *)
Lemma get_worklist_from_db_fails (db : OracleDb) (requestor_ae : string)
    (w : trace) :
  retrieval_fails db requestor_ae ->
  fst (get_worklist_from_db db requestor_ae w) = Ok [].
Proof.
  intro H. run_query_steps.
  destruct (makedsn_fault db) as [e1|] eqn:E1; [now destruct e1|].
  destruct (connect_fault db) as [e2|] eqn:E2; [now destruct e2|].
  destruct (cursor_fault db) as [e3|] eqn:E3; [now destruct e3|].
  destruct (execute_fault db) as [e4|] eqn:E4; [now destruct e4|].
  simpl.
  destruct (Sql.run_query (RIS_WORKLIST_VIEW db) requestor_ae) as [rows|e5] eqn:E5;
    [|now destruct e5].
  destruct (fetchall_fault db) as [e6|] eqn:E6; [now destruct e6|].
  exfalso. destruct H as [H|[H|[H|[H|[[e H]|H]]]]]; congruence.
Qed.

(** The query never raises to its caller. *)
Lemma get_worklist_from_db_returns (db : OracleDb) (requestor_ae : string)
    (w : trace) :
  exists rows, fst (get_worklist_from_db db requestor_ae w) = Ok rows.
Proof.
  run_query_steps.
  destruct (makedsn_fault db) as [[]|]; [now eexists..|].
  destruct (connect_fault db) as [[]|]; [now eexists..|].
  destruct (cursor_fault db) as [[]|]; [now eexists..|].
  destruct (execute_fault db) as [[]|]; [now eexists..|].
  simpl.
  destruct (Sql.run_query (RIS_WORKLIST_VIEW db) requestor_ae) as [rows|[]];
    [|now eexists..].
  destruct (fetchall_fault db) as [[]|]; now eexists.
Qed.

(** Whatever happens, the query closes the cursor and the connection it
    opened. *)
Lemma get_worklist_from_db_releases (db : OracleDb) (requestor_ae : string)
    (w : trace) :
  exists t, snd (get_worklist_from_db db requestor_ae w) = (w ++ t)%list
            /\ all_released t.
Proof.
  run_query_steps.
  destruct (makedsn_fault db) as [[]|];
    [exists []; simpl; rewrite app_nil_r; now repeat split..|].
  destruct (connect_fault db) as [[]|];
    [exists []; simpl; rewrite app_nil_r; now repeat split..|].
  destruct (cursor_fault db) as [[]|];
    [exists [ConnOpened; ConnClosed]; simpl; rewrite <- !app_assoc;
     now repeat split..|].
  destruct (execute_fault db) as [[]|];
    [exists full_query_trace; simpl; rewrite <- !app_assoc; now repeat split..|].
  simpl.
  destruct (Sql.run_query (RIS_WORKLIST_VIEW db) requestor_ae) as [rows|[]];
    [|exists full_query_trace; simpl; rewrite <- !app_assoc; now repeat split..].
  destruct (fetchall_fault db) as [[]|];
    exists full_query_trace; simpl; rewrite <- !app_assoc; now repeat split.
Qed.

(** C3.  Whatever step of the retrieval fails, and however, the query
    returns the empty row list to its caller instead of raising, and that
    is the very result of a query that ran and matched no row. *)
Theorem query_failure_is_empty_result (db : OracleDb) (requestor_ae : string)
    (w : trace) :
  retrieval_fails db requestor_ae ->
  fst (get_worklist_from_db db requestor_ae w) = Ok []
  /\ (forall db' requestor_ae' w',
         no_rows_match db' requestor_ae' ->
         fst (get_worklist_from_db db' requestor_ae' w')
         = fst (get_worklist_from_db db requestor_ae w)).
Proof.
  intro H. rewrite (get_worklist_from_db_fails db requestor_ae w H).
  split; [reflexivity|].
  intros db' ae' w' (H1 & H2 & H3 & H4 & H5 & Hq).
  now rewrite (get_worklist_from_db_completes db' ae' w' [] H1 H2 H3 H4 H5 Hq).
Qed.

Lemma query_failure_is_empty_result_witness :
  fst (get_worklist_from_db unreachable_db "AE1" []) = Ok []
  /\ fst (get_worklist_from_db (healthy_db [sample_row]) "AE9" [])
     = fst (get_worklist_from_db unreachable_db "AE1" []).
Proof.
  assert (retrieval_fails unreachable_db "AE1") as H.
  { right. left. simpl. discriminate. }
  destruct (query_failure_is_empty_result unreachable_db "AE1" [] H) as [E Hsame].
  split; [exact E|].
  apply Hsame. repeat split; reflexivity.
Defined.

(* ===================================================================== *)
(** * The Find handler *)
(* ===================================================================== *)

(** [handle_find] once the outcome of the query is known. *)
Lemma handle_find_after_query (db : OracleDb) (requestor_ae : string)
    (w : trace) (rows : list row) :
  fst (get_worklist_from_db db requestor_ae w) = Ok rows ->
  fst (handle_find db requestor_ae w)
  = match rows with
    | [] => Ok [(STATUS_SUCCESS, None)]
    | _ :: _ => find_loop [] rows
    end.
Proof.
  unfold handle_find. simpl bind.
  destruct (get_worklist_from_db db requestor_ae w) as [r w'].
  simpl. intros ->. now destruct rows.
Qed.


(** The loop dies with the exception of the first row that does not
    build, whatever it has gathered so far. *)
Lemma find_loop_aborts (rows : list row) :
  Exists (fun r => is_ok (build_dataset r) = false) rows ->
  forall responses, exists e, find_loop responses rows = Raise e.
Proof.
  induction rows as [|r rows IH]; intros H responses.
  - inversion H.
  - simpl. destruct (build_dataset r) as [ds|e] eqn:Hr.
    + apply IH. inversion H as [? ? Hbad|]; [|assumption].
      rewrite Hr in Hbad. discriminate Hbad.
    + now exists e.
Qed.





(** C4.  When the schedule query returns zero rows, the handler gives
    exactly one response: the success status with no dataset.  None of its
    responses is tagged pending, the requestor is sent that one status,
    and the status is none of the failure codes. *)
Theorem find_without_rows (db : OracleDb) (requestor_ae : string) (w : trace) :
  fst (get_worklist_from_db db requestor_ae w) = Ok [] ->
  exists responses,
    fst (handle_find db requestor_ae w) = Ok responses
    /\ responses = [(STATUS_SUCCESS, None)]
    /\ filter (fun rsp => (fst rsp =? STATUS_PENDING)%Z) responses = []
    /\ find_session responses = [Final STATUS_SUCCESS]
    /\ STATUS_SUCCESS <> STATUS_PENDING
    /\ ~ In STATUS_SUCCESS [STATUS_UNABLE_TO_UNDERSTAND;
                           STATUS_OUT_OF_RESOURCES;
                           STATUS_UNABLE_TO_PROCESS].
Proof.
  intro H. exists [(STATUS_SUCCESS, None)].
  rewrite (handle_find_after_query db requestor_ae w [] H).
  repeat split; try reflexivity; try discriminate.
  simpl. intros [E|[E|[E|[]]]]; discriminate E.
Qed.

Lemma find_without_rows_witness :
  fst (handle_find (healthy_db [sample_row]) "AE9" [])
  = Ok [(STATUS_SUCCESS, None)].
Proof.
  destruct (find_without_rows (healthy_db [sample_row]) "AE9" [] eq_refl)
    as (responses & -> & -> & _).
  reflexivity.
Defined.

(** One row that does not build makes the handler raise: no response is
    returned for any row. *)
Lemma find_aborts_on_bad_row (db : OracleDb) (requestor_ae : string)
    (w : trace) (rows : list row) :
  fst (get_worklist_from_db db requestor_ae w) = Ok rows ->
  Exists (fun r => shapeable r = false) rows ->
  exists e, fst (handle_find db requestor_ae w) = Raise e.
Proof.
  intros Hq Hbad.
  rewrite (handle_find_after_query db requestor_ae w rows Hq).
  destruct rows as [|r rows]; [inversion Hbad|].
  apply find_loop_aborts.
  apply Exists_exists in Hbad as (r' & Hin & Hr').
  apply Exists_exists. exists r'. split; [assumption|].
  destruct (is_ok (build_dataset r')) eqn:E; [|reflexivity].
  apply build_dataset_shapeable in E. congruence.
Qed.




(** The conditions on the rows are needed.  A patient identifier with a
    backslash is kept as a list of values, and reading it back for the
    study identifier makes the handler raise. *)
Example find_aborts_on_backslash :
  let r := set_column 17 (PyStr (String Pydicom.backslash "MX_0042")) sample_row in
  fst (get_worklist_from_db (healthy_db [r]) "AE1" []) = Ok [r]
  /\ shapeable r = false
  /\ fst (handle_find (healthy_db [r]) "AE1" []) = Raise AttributeError.
Proof. repeat split. Qed.

(** A physician that is a number is refused as a person name. *)
Example find_aborts_on_numeric_physician :
  let r := set_column 11 (PyInt 7) sample_row in
  fst (get_worklist_from_db (healthy_db [r]) "AE1" []) = Ok [r]
  /\ shapeable r = false
  /\ fst (handle_find (healthy_db [r]) "AE1" []) = Raise AttributeError.
Proof. repeat split. Qed.

(** A specialty that is a number builds, and the handler returns the
    dataset, but the find service cannot encode it: the requestor is sent
    a failure status and no dataset. *)
Example find_fails_on_numeric_specialty :
  let r := set_column 8 (PyInt 12) sample_row in
  shapeable r = true
  /\ text_columns r = false
  /\ exists ds,
       fst (handle_find (healthy_db [r]) "AE1" []) = Ok [(STATUS_PENDING, Some ds)]
       /\ find_session [(STATUS_PENDING, Some ds)] = [Final STATUS_CANNOT_ENCODE].
Proof.
  split; [reflexivity|]. split; [reflexivity|].
  eexists. split; reflexivity.
Qed.

(* ===================================================================== *)
(** * The store forwarder *)
(* ===================================================================== *)

Ltac run_store_steps :=
  unfold handle_store, try_except, store_body, call, raise, lift, mark, modify;
  simpl.

(** The handler never raises, and its return falls in one of the four
    classes. *)
Lemma handle_store_classifies (node : Downstream) (w : trace) :
  exists r, fst (handle_store node w) = Ok r /\ push_outcome node r.
Proof.
  run_store_steps.
  destruct (forward_ae_fault node) as [e1|] eqn:E1.
  { eexists. split; [reflexivity|]. apply exception_raised. left. congruence. }
  destruct (add_requested_context_fault node) as [e2|] eqn:E2.
  { eexists. split; [reflexivity|]. apply exception_raised.
    right; left. split; congruence. }
  assert (forwarder_ready node) as Hready by (split; assumption).
  simpl.
  destruct (associate_outcome node) as [[|]|e3] eqn:E3; simpl.
  - destruct (has_file_meta node) as [has|e4] eqn:E4; simpl.
    + assert (forall e, set_file_meta_fault node = Some e ->
                        has = false -> relay_raises node) as Hset.
      { intros e He ->. do 3 right. repeat split; try assumption.
        right; left. split; congruence. }
      destruct (send_c_store_outcome node) as [status|e5] eqn:E5.
      * destruct (release_fault node) as [e6|] eqn:E6.
        -- eexists. split.
           ++ destruct has; [reflexivity|].
              destruct (set_file_meta_fault node); reflexivity.
           ++ apply exception_raised. do 3 right. repeat split; try assumption.
              do 3 right. congruence.
        -- destruct has; simpl.
           ++ destruct status as [|el status]; simpl;
                (eexists; split; [reflexivity|]).
              ** apply no_status. repeat split; try assumption. now left.
              ** apply relayed; [|discriminate].
                 repeat split; try assumption. now left.
           ++ destruct (set_file_meta_fault node) as [e7|] eqn:E7; simpl.
              ** eexists. split; [reflexivity|].
                 apply exception_raised. now apply (Hset e7).
              ** destruct status as [|el status]; simpl;
                   (eexists; split; [reflexivity|]).
                 --- apply no_status. repeat split; try assumption.
                     right. now split.
                 --- apply relayed; [|discriminate].
                     repeat split; try assumption. right. now split.
      * eexists. split.
        -- destruct has; [reflexivity|].
           destruct (set_file_meta_fault node); reflexivity.
        -- apply exception_raised. do 3 right. repeat split; try assumption.
           right; right; left. now exists e5.
    + eexists. split; [reflexivity|].
      apply exception_raised. do 3 right. repeat split; try assumption.
      left. now exists e4.
  - eexists. split; [reflexivity|]. now apply not_established.
  - eexists. split; [reflexivity|]. apply exception_raised.
    right; right; left. split; [assumption|]. now exists e3.
Qed.

(** Each class fixes the return of the handler. *)
Lemma push_outcome_determines (node : Downstream) (w : trace) (r : store_return) :
  push_outcome node r -> fst (handle_store node w) = Ok r.
Proof.
  intro H. run_store_steps.
  destruct H as [status ([E1 E2] & E3 & Hmeta & E5 & E6) Hne
                | ([E1 E2] & E3 & Hmeta & E5 & E6)
                | [E1 E2] E3
                | Hraise].
  - rewrite E1, E2, E3, E5, E6. simpl.
    destruct Hmeta as [->|[-> ->]]; simpl;
      (destruct status; [congruence | reflexivity]).
  - rewrite E1, E2, E3, E5, E6. simpl.
    destruct Hmeta as [->|[-> ->]]; reflexivity.
  - now rewrite E1, E2, E3.
  - destruct Hraise as [H|[[E1 H]|[[[E1 E2] [e H]]|[[E1 E2] [E3 H]]]]].
    + destruct (forward_ae_fault node); [reflexivity | congruence].
    + rewrite E1.
      destruct (add_requested_context_fault node); [reflexivity | congruence].
    + now rewrite E1, E2, H.
    + rewrite E1, E2, E3. simpl.
      destruct H as [[e H]|[[H1 H2]|[[e H]|H]]].
      * now rewrite H.
      * rewrite H1. simpl.
        destruct (set_file_meta_fault node); [reflexivity | congruence].
      * rewrite H.
        destruct (has_file_meta node) as [[|]|]; simpl; try reflexivity.
        destruct (set_file_meta_fault node); reflexivity.
      * destruct (has_file_meta node) as [[|]|]; simpl; try reflexivity.
        -- destruct (send_c_store_outcome node); simpl; [|reflexivity].
           destruct (release_fault node); [reflexivity | congruence].
        -- destruct (set_file_meta_fault node); simpl; [reflexivity|].
           destruct (send_c_store_outcome node); simpl; [|reflexivity].
           destruct (release_fault node); [reflexivity | congruence].
Qed.

(** C1, as the code has it.  The handler always returns, and what it
    returns is fixed by a four-way classification: the status dataset of
    the downstream node, unchanged, when the relay completes with one
    (whatever status it carries); the out-of-resources code when the relay
    completes with an empty status; the unable-to-understand code when the
    association is not established; the unable-to-process code when any
    call of the relay raises. *)
Theorem push_classification (node : Downstream) (w : trace) :
  (exists r, fst (handle_store node w) = Ok r)
  /\ (forall r, fst (handle_store node w) = Ok r <-> push_outcome node r).
Proof.
  destruct (handle_store_classifies node w) as (r0 & E & H0).
  split; [now exists r0|].
  intro r. split.
  - intro Er. rewrite E in Er. injection Er as <-. exact H0.
  - apply push_outcome_determines.
Qed.

(** The classification at work on the four kinds of node. *)
Lemma push_classification_witness :
  fst (handle_store (healthy_node [("Status", 0%Z)]) [])
    = Ok (ReturnDataset [("Status", 0%Z)])
  /\ fst (handle_store (healthy_node [("Status", 0xA700%Z)]) [])
     = Ok (ReturnDataset [("Status", 0xA700%Z)])
  /\ fst (handle_store (healthy_node []) [])
     = Ok (ReturnCode STATUS_OUT_OF_RESOURCES)
  /\ fst (handle_store refusing_node [])
     = Ok (ReturnCode STATUS_UNABLE_TO_UNDERSTAND)
  /\ fst (handle_store crashing_node [])
     = Ok (ReturnCode STATUS_UNABLE_TO_PROCESS).
Proof.
  split; [|split; [|split; [|split]]].
  - apply (push_classification (healthy_node [("Status", 0%Z)]) []).
    apply relayed; [|discriminate]. repeat split; try reflexivity. now left.
  - apply (push_classification (healthy_node [("Status", 0xA700%Z)]) []).
    apply relayed; [|discriminate]. repeat split; try reflexivity. now left.
  - apply (push_classification (healthy_node []) []).
    apply no_status. repeat split; try reflexivity. now left.
  - apply (push_classification refusing_node []).
    apply not_established; [split|]; reflexivity.
  - apply (push_classification crashing_node []).
    apply exception_raised. do 3 right. repeat split; try reflexivity.
    right; right; left. now eexists.
Defined.

(** C1 as stated fails.  A refused association and a transfer without a
    status are to give the one processing-failure code: they give two
    different codes, neither of them the unable-to-process code.  An
    exception is to give the cannot-understand code: it gives the
    unable-to-process code. *)
Lemma push_classification_counterexample :
  let refused := fst (handle_store refusing_node []) in
  let silent := fst (handle_store (healthy_node []) []) in
  let crashed := fst (handle_store crashing_node []) in
  refused = Ok (ReturnCode STATUS_UNABLE_TO_UNDERSTAND)
  /\ silent = Ok (ReturnCode STATUS_OUT_OF_RESOURCES)
  /\ crashed = Ok (ReturnCode STATUS_UNABLE_TO_PROCESS)
  /\ refused <> silent
  /\ refused <> Ok (ReturnCode STATUS_UNABLE_TO_PROCESS)
  /\ silent <> Ok (ReturnCode STATUS_UNABLE_TO_PROCESS)
  /\ crashed <> Ok (ReturnCode STATUS_UNABLE_TO_UNDERSTAND).
Proof.
  repeat split; try reflexivity; vm_compute; discriminate.
Qed.

(** ** Release of the association *)

(** When the relay completes the association is released. *)
Lemma handle_store_releases_on_completion (node : Downstream) (w : trace)
    (status : StatusDataset) :
  relay_completes node status ->
  snd (handle_store node w) = (w ++ [AssocEstablished; AssocReleased])%list
  /\ all_released [AssocEstablished; AssocReleased].
Proof.
  intros ([E1 E2] & E3 & Hmeta & E5 & E6). split; [|now repeat split].
  run_store_steps. rewrite E1, E2, E3, E5, E6. simpl.
  destruct Hmeta as [->|[-> ->]]; simpl;
    destruct status; simpl; now rewrite <- app_assoc.
Qed.

(** When a call raises after the association is established, the handler
    returns with the association never released. *)
Lemma handle_store_leaks_on_exception (node : Downstream) (w : trace) :
  forwarder_ready node ->
  associate_outcome node = Ok true ->
  (exists e, has_file_meta node = Raise e)
  \/ (has_file_meta node = Ok false /\ set_file_meta_fault node <> None)
  \/ (exists e, send_c_store_outcome node = Raise e)
  \/ release_fault node <> None ->
  snd (handle_store node w) = (w ++ [AssocEstablished])%list
  /\ ~ all_released [AssocEstablished].
Proof.
  intros [E1 E2] E3 H. split; [|intros (_ & _ & Hc); discriminate Hc].
  run_store_steps. rewrite E1, E2, E3. simpl.
  destruct H as [[e H]|[[H1 H2]|[[e H]|H]]].
  - now rewrite H.
  - rewrite H1. simpl.
    destruct (set_file_meta_fault node); [reflexivity | congruence].
  - rewrite H.
    destruct (has_file_meta node) as [[|]|]; simpl; try reflexivity.
    destruct (set_file_meta_fault node); reflexivity.
  - destruct (has_file_meta node) as [[|]|]; simpl; try reflexivity.
    + destruct (send_c_store_outcome node); simpl; [|reflexivity].
      destruct (release_fault node); [reflexivity | congruence].
    + destruct (set_file_meta_fault node); simpl; [reflexivity|].
      destruct (send_c_store_outcome node); simpl; [|reflexivity].
      destruct (release_fault node); [reflexivity | congruence].
Qed.

(** C2 fails on the forwarder: the association is established, the
    transfer raises, and the handler returns with the association still
    open.  (The query does release what it opened on every path:
    [get_worklist_from_db_releases].) *)
Theorem store_exception_leaves_association_open :
  handle_store crashing_node []
  = (Ok (ReturnCode STATUS_UNABLE_TO_PROCESS), [AssocEstablished])
  /\ ~ all_released (snd (handle_store crashing_node [])).
Proof.
  split; [reflexivity|].
  intros (_ & _ & H). vm_compute in H. discriminate H.
Qed.

(* ===================================================================== *)
(** * The whole-token match *)
(* ===================================================================== *)

Module RegexFacts.
Import Regex.

(** ** Parsing a pattern around plain characters *)

Lemma parse_from_plain_char (c : ascii) (stack : list frame) (top : frame)
    (p : string) :
  is_operator c = false ->
  parse_from stack top (String c p)
  = parse_from stack (push_atom (Chr c) top) p.
Proof.
  unfold is_operator. cbn [existsb]. intro H.
  repeat (apply orb_false_elim in H; destruct H as [?E H]).
  cbn [parse_from]. now rewrite E, E0, E1, E2, E3, E4, E5, E6, E7, E8, E9, E10.
Qed.

Lemma parse_from_plain (x : string) :
  PyStr.all_chars (fun c => negb (is_operator c)) x = true ->
  forall stack top p,
    parse_from stack top (x ++ p) = parse_from stack (push_lits x top) p.
Proof.
  induction x as [|c x IH]; intros H stack top p; [reflexivity|].
  simpl in H. apply andb_prop in H as [Hc Hx].
  apply negb_true_iff in Hc.
  change (String c x ++ p) with (String c (x ++ p)).
  rewrite (parse_from_plain_char c stack top (x ++ p) Hc).
  now rewrite IH.
Qed.

Lemma branches_push_lits (x : string) (f : frame) :
  branches (push_lits x f) = branches f.
Proof. revert f. induction x as [|c x IH]; intro f; simpl; [reflexivity | now rewrite IH]. Qed.

Lemma fold_atoms_push_lits (x : string) (f : frame) (acc : regex) :
  fold_left (fun k a => Seq a k) (atoms (push_lits x f)) acc
  = fold_left (fun k a => Seq a k) (atoms f) (lits x acc).
Proof.
  revert f acc. induction x as [|c x IH]; intros f acc; simpl; [reflexivity|].
  now rewrite IH.
Qed.

(** The pattern of the statement, for an identity of plain characters,
    parses to the opening group, the characters, the closing group. *)
Lemma parse_pattern_plain (x : string) :
  PyStr.all_chars (fun c => negb (is_operator c)) x = true ->
  parse (Sql.pattern x) = Some (Seq opening (lits x (Seq closing Eps))).
Proof.
  intro H. unfold parse, Sql.pattern.
  change ("(^|,)" ++ x ++ "(,|$)")
    with (String "(" (String "^" (String "|" (String "," (String ")"
            (x ++ "(,|$)")))))).
  cbn [parse_from Ascii.eqb Bool.eqb orb].
  rewrite (parse_from_plain x H).
  cbn [parse_from Ascii.eqb Bool.eqb orb].
  unfold close at 1. cbn [branches atoms push_atom next_branch empty_frame].
  rewrite branches_push_lits. cbn [branches atoms push_atom fold_left].
  unfold seq_of at 1. cbn [fold_left].
  rewrite fold_atoms_push_lits. reflexivity.
Qed.

(** ** Matching the parsed pattern *)

Lemma matches_at_seq (a b : regex) (p : position) :
  matches_at (Seq a b) p = existsb (matches_at b) (ends a p).
Proof.
  unfold matches_at. cbn [ends].
  induction (ends a p) as [|q qs IH]; [reflexivity|].
  cbn [flat_map existsb]. destruct (ends b q); [exact IH | reflexivity].
Qed.

Lemma ends_lits (x : string) (k : regex) (p : position) :
  ends (lits x k) p
  = match strip_prefix x (rest p) with
    | Some s' => ends k (if PyStr.is_empty x then p else advance s')
    | None => []
    end.
Proof.
  revert p. induction x as [|c x IH]; intros [start s]; [reflexivity|].
  cbn [lits ends strip_prefix PyStr.is_empty rest].
  destruct s as [|d s]; [reflexivity|].
  destruct (Ascii.eqb c d); [|reflexivity].
  cbn [flat_map]. rewrite app_nil_r, IH. cbn [rest advance].
  destruct x; reflexivity.
Qed.

Lemma matches_at_closing (q : position) :
  matches_at (Seq closing Eps) q = at_delimiter (rest q).
Proof.
  unfold matches_at, closing. cbn [ends].
  destruct (rest q) as [|c s]; [reflexivity|]. cbn [PyStr.is_empty at_delimiter].
  rewrite Ascii.eqb_sym. destruct (Ascii.eqb c ","); reflexivity.
Qed.

Lemma matches_at_lits (x : string) (p : position) :
  matches_at (lits x (Seq closing Eps)) p = starts_token x (rest p).
Proof.
  unfold starts_token. unfold matches_at at 1. rewrite ends_lits.
  destruct (strip_prefix x (rest p)) as [s'|] eqn:E; [|reflexivity].
  fold (matches_at (Seq closing Eps)
          (if PyStr.is_empty x then p else advance s')).
  rewrite matches_at_closing.
  destruct x; cbn [PyStr.is_empty rest advance]; [|reflexivity].
  simpl in E. injection E as E. now rewrite E.
Qed.

Lemma matches_at_pattern (x : string) (p : position) :
  matches_at (Seq opening (lits x (Seq closing Eps))) p
  = (at_start p && starts_token x (rest p)) || comma_then_token x (rest p).
Proof.
  rewrite matches_at_seq. unfold opening. cbn [ends].
  destruct p as [start s]. cbn [at_start rest].
  destruct start; destruct s as [|c s]; cbn [flat_map app existsb ends comma_then_token];
    rewrite ?matches_at_lits; cbn [rest andb orb]; rewrite ?orb_false_r;
    try reflexivity;
    rewrite Ascii.eqb_sym; destruct (Ascii.eqb c ",");
    cbn [flat_map app existsb ends andb orb];
    rewrite ?matches_at_lits, ?orb_false_r; reflexivity.
Qed.

Lemma token_after_comma_unfold (x s : string) :
  comma_then_token x s
  || existsb (matches_at (Seq opening (lits x (Seq closing Eps))))
             (later_positions s)
  = token_after_comma x s.
Proof.
  induction s as [|c s IH]; [reflexivity|].
  cbn [later_positions existsb token_after_comma].
  rewrite matches_at_pattern. cbn [at_start rest advance andb orb].
  rewrite IH. reflexivity.
Qed.

(** The search of the parsed pattern, in two questions on the subject. *)
Lemma search_pattern (x subject : string) :
  search subject (Seq opening (lits x (Seq closing Eps)))
  = starts_token x subject || token_after_comma x subject.
Proof.
  unfold search. cbn [existsb]. rewrite matches_at_pattern.
  cbn [at_start rest andb]. rewrite <- orb_assoc.
  now rewrite token_after_comma_unfold.
Qed.

(** ** Whole tokens of a comma-delimited list *)

Lemma tokens_not_nil (sep : ascii) (s : string) : tokens sep s <> [].
Proof.
  destruct s as [|c s]; simpl; [discriminate|].
  destruct (Ascii.eqb c sep); [discriminate|].
  destruct (tokens sep s); discriminate.
Qed.

(** The list begins with the identity and a delimiter exactly when the
    identity is its first token. *)
Lemma starts_token_head (s : string) :
  forall x t ts, comma_free x -> tokens "," s = t :: ts ->
                 (starts_token x s = true <-> x = t).
Proof.
  unfold comma_free, starts_token.
  induction s as [|c s IH]; intros x t ts Hx HT; simpl in HT.
  - injection HT as <- <-. destruct x; simpl; split; congruence.
  - destruct (Ascii.eqb c ",") eqn:Hc.
    + injection HT as <- <-. destruct x as [|d x]; simpl.
      * rewrite Hc. split; congruence.
      * simpl in Hx. apply andb_prop in Hx as [Hd _].
        apply Ascii.eqb_eq in Hc. subst c.
        apply negb_true_iff in Hd. rewrite Hd. split; congruence.
    + destruct (tokens "," s) as [|t' ts'] eqn:HT';
        [now destruct (tokens_not_nil "," s)|].
      injection HT as <- <-. destruct x as [|d x]; simpl.
      * rewrite Hc. split; congruence.
      * simpl in Hx. apply andb_prop in Hx as [_ Hx].
        destruct (Ascii.eqb_spec d c) as [->|Hne].
        -- rewrite (IH x t' ts' Hx eq_refl). split; congruence.
        -- split; congruence.
Qed.

(** A comma of the list is followed by the identity and a delimiter
    exactly when the identity is one of the tokens after the first. *)
Lemma token_after_comma_tail (s : string) :
  forall x t ts, comma_free x -> tokens "," s = t :: ts ->
                 (token_after_comma x s = true <-> In x ts).
Proof.
  induction s as [|c s IH]; intros x t ts Hx HT; simpl in HT.
  - injection HT as <- <-. simpl. split; [discriminate | contradiction].
  - simpl. destruct (tokens "," s) as [|t' ts'] eqn:HT';
      [now destruct (tokens_not_nil "," s)|].
    destruct (Ascii.eqb c ","); injection HT as <- <-; simpl.
    + rewrite orb_true_iff, (starts_token_head s x t' ts' Hx HT'),
        (IH x t' ts' Hx eq_refl).
      split; intros [H|H]; auto.
    + apply (IH x t' ts' Hx eq_refl).
Qed.

Lemma token_of_list (x s : string) :
  comma_free x ->
  (starts_token x s || token_after_comma x s = true <-> In x (tokens "," s)).
Proof.
  intro Hx. destruct (tokens "," s) as [|t ts] eqn:HT;
    [now destruct (tokens_not_nil "," s)|].
  rewrite orb_true_iff, (starts_token_head s x t ts Hx HT),
    (token_after_comma_tail s x t ts Hx HT).
  simpl. split; intros [H|H]; auto.
Qed.

(** An identity free of operators and commas is found by the search of
    the statement exactly in the lists that hold it as a whole token. *)
Lemma whole_token_search (x : string) :
  PyStr.all_chars (fun c => negb (is_operator c)) x = true ->
  comma_free x ->
  exists re,
    parse (Sql.pattern x) = Some re
    /\ forall s, search s re = true <-> In x (tokens "," s).
Proof.
  intros Hplain Hx. eexists. split; [now apply parse_pattern_plain|].
  intro s. rewrite search_pattern. now apply token_of_list.
Qed.

End RegexFacts.

(** C8 fails on an identity that holds a pattern operator: the identity
    "AE." is no token of the list "AE1,AE2", and the query returns the row
    of that list, the period standing for the "1".  The two cases the
    specification names do hold: "AE1" gets the row of "AE1,AE2" and not
    the row of "AE10,AE2".  (For an identity free of operators and commas
    the match is by whole token: [RegexFacts.whole_token_search].) *)
Theorem period_identity_matches_other_token :
  nth_error sample_row Sql.AETitle_column = Some (PyStr "AE1,AE2")
  /\ ~ In "AE." (tokens "," "AE1,AE2")
  /\ Sql.run_query [sample_row] "AE." = Ok [sample_row]
  /\ fst (get_worklist_from_db (healthy_db [sample_row]) "AE." [])
     = Ok [sample_row]
  /\ fst (get_worklist_from_db (healthy_db [sample_row; row_for_AE10]) "AE1" [])
     = Ok [sample_row].
Proof.
  split; [reflexivity|]. split; [|repeat split].
  simpl. intros [H|[H|[]]]; discriminate H.
Qed.

(** ** The rows the statement returns *)

Module SqlFacts.
Import Sql.

Lemma pyval_eqb_sound (a b : pyval) : pyval_eqb a b = true -> a = b.
Proof.
  destruct a, b; simpl; try discriminate; intro H.
  - reflexivity.
  - apply Z.eqb_eq in H. now subst.
  - apply String.eqb_eq in H. now subst.
  - repeat (apply andb_prop in H; destruct H as [H ?E]).
    apply Z.eqb_eq in H, E, E0, E1, E2, E3. now subst.
Qed.

Lemma row_eqb_sound (a : row) : forall b, row_eqb a b = true -> a = b.
Proof.
  induction a as [|x a IH]; intros [|y b]; simpl; try discriminate; intro H.
  - reflexivity.
  - apply andb_prop in H as [Hx Ha].
    now rewrite (pyval_eqb_sound x y Hx), (IH b Ha).
Qed.

Lemma In_distinct (r : row) (rows : list row) :
  In r (distinct rows) <-> In r rows.
Proof.
  induction rows as [|r0 rows IH]; simpl; [reflexivity|].
  rewrite filter_In, IH. split.
  - intros [H|[H _]]; auto.
  - intros [H|H]; [now left|].
    destruct (row_eqb r0 r) eqn:E.
    + left. now apply row_eqb_sound.
    + right. now split.
Qed.

Lemma In_insert_by_hour (r x : row) (rows : list row) :
  In r (insert_by_hour x rows) <-> r = x \/ In r rows.
Proof.
  induction rows as [|y rows IH]; simpl.
  - split; intros [H|H]; auto.
  - destruct (hour_le x y); simpl; [|rewrite IH]; split; intuition auto.
Qed.

Lemma In_order_by_hour (r : row) (rows : list row) :
  In r (order_by_hour rows) <-> In r rows.
Proof.
  unfold order_by_hour. induction rows as [|x rows IH]; simpl; [reflexivity|].
  rewrite In_insert_by_hour, IH. split; intros [H|H]; auto.
Qed.

(** For an identity free of operators and commas the statement completes
    and returns exactly the rows of the view whose endpoint list holds
    the identity as a whole token. *)
Lemma run_query_whole_token (view : list row) (aetitle : string) :
  PyStr.all_chars (fun c => negb (Regex.is_operator c)) aetitle = true ->
  Regex.comma_free aetitle ->
  exists rows,
    run_query view aetitle = Ok rows
    /\ forall r,
         In r rows
         <-> In r view
             /\ exists aetitles,
                  nth_error r AETitle_column = Some (PyStr aetitles)
                  /\ aetitles <> ""
                  /\ In aetitle (tokens "," aetitles).
Proof.
  intros Hplain Hfree.
  destruct (RegexFacts.whole_token_search aetitle Hplain Hfree) as (re & Hre & Hs).
  unfold run_query. rewrite Hre. eexists. split; [reflexivity|].
  intro r. rewrite In_order_by_hour, In_distinct, filter_In.
  unfold where_clause. split.
  - intros [Hin Hw]. split; [assumption|].
    destruct (nth_error r AETitle_column) as [[| |aetitles|]|]; try discriminate Hw.
    exists aetitles. apply andb_prop in Hw as [Hne Hm].
    split; [reflexivity|]. split; [|now apply Hs].
    intros ->. discriminate Hne.
  - intros [Hin (aetitles & -> & Hne & Htok)]. split; [assumption|].
    apply andb_true_intro. split; [|now apply Hs].
    destruct aetitles; [congruence | reflexivity].
Qed.

End SqlFacts.

(* ===================================================================== *)
(** * Start-up *)
(* ===================================================================== *)

Module ConfigFacts.
Import Config.

Ltac run_init_steps :=
  unfold module_init, load_oracle, load_orthanc_config, extract_orthanc,
    oracle_settings, orthanc_settings, try_except, lift, raise, modify,
    set_ORACLE_HOST, set_ORACLE_PORT, set_ORACLE_SERVICE_NAME,
    set_ORACLE_USERNAME, set_ORACLE_PASSWORD, set_ORTHANC_HOST,
    set_ORTHANC_PORT, set_ORTHANC_AET;
  simpl.

Ltac split_lookups :=
  repeat match goal with
         | |- context [match subscript ?v ?k with Ok _ => _ | Raise _ => _ end] =>
             destruct (subscript v k); simpl
         end.

(** X1.  The settings of the downstream node are taken from the file all three
    together or not at all: when the file gives the three of them they are
    bound as given; when any of them cannot be read, all three are bound
    to the defaults, also the ones the file does give.  The extraction
    never raises and leaves the Oracle settings alone. *)
Theorem orthanc_settings_all_or_nothing (orthanc_config : json) (g : globals) :
  let g' := snd (extract_orthanc orthanc_config g) in
  fst (extract_orthanc orthanc_config g) = Ok tt
  /\ oracle_bound g' = oracle_bound g
  /\ orthanc_bound g'
     = match orthanc_settings orthanc_config with
       | Ok (host, port, ae_title) => (Some host, Some port, Some ae_title)
       | Raise _ =>
           (Some (JString "localhost"), Some (JNumber 4242),
            Some (JString "ORTHANC"))
       end.
Proof.
  run_init_steps. split_lookups; repeat split.
Qed.

(** A forwarding file without the title: the host and the port it names
    are not used. *)
Example orthanc_file_without_title :
  orthanc_bound (snd (extract_orthanc orthanc_config_without_title unbound))
  = (Some (JString "localhost"), Some (JNumber 4242), Some (JString "ORTHANC")).
Proof. reflexivity. Qed.

(** X2.  Start-up stands or falls with the database file alone.  When the
    file gives the five Oracle settings, start-up completes, binds them as
    given, and binds the settings of the downstream node from the
    forwarding file or, when that file is missing, unreadable or
    incomplete, to the defaults.  When the database file cannot be loaded
    or lacks a setting, start-up raises that very exception, and the
    forwarding file is never looked at. *)
Theorem startup_depends_on_database_file (files : Files) (g : globals) :
  let g' := snd (module_init files g) in
  match oracle_settings files with
  | Ok (host, port, service_name, username, password) =>
      fst (module_init files g) = Ok tt
      /\ oracle_bound g'
         = (Some host, Some port, Some service_name, Some username,
            Some password)
      /\ orthanc_bound g'
         = match orthanc_settings (loaded_orthanc_config files) with
           | Ok (h, p, a) => (Some h, Some p, Some a)
           | Raise _ =>
               (Some (JString "localhost"), Some (JNumber 4242),
                Some (JString "ORTHANC"))
           end
  | Raise e =>
      fst (module_init files g) = Raise e
      /\ orthanc_bound g' = orthanc_bound g
  end.
Proof.
  unfold loaded_orthanc_config. run_init_steps.
  destruct (db_config_json files) as [config|e]; simpl; [|now split].
  repeat match goal with
         | |- context [match subscript ?v ?k with Ok _ => _ | Raise _ => _ end] =>
             match v with
             | context [forward_orthanc_connection_json] => fail 1
             | _ => destruct (subscript v k); simpl; [|now split]
             end
         end.
  destruct (forward_orthanc_connection_json files) as [cfg|e]; simpl;
    split_lookups; repeat split.
Qed.

(** The database file is there and the forwarding file is not. *)
Example startup_without_forwarding_file :
  let files := {| db_config_json := Ok good_db_config;
                  forward_orthanc_connection_json :=
                    Raise (PyException "FileNotFoundError") |} in
  fst (module_init files unbound) = Ok tt
  /\ orthanc_bound (snd (module_init files unbound))
     = (Some (JString "localhost"), Some (JNumber 4242), Some (JString "ORTHANC")).
Proof. split; reflexivity. Qed.

End ConfigFacts.

(* ===================================================================== *)
(** * More on the response builder *)
(* ===================================================================== *)

(** A successful build, column by column. *)
Lemma build_dataset_inversion (r : row) (ds : Dataset) :
  build_dataset r = Ok ds ->
  exists v10 v17 name v18 y5 m5 d5 h5 i5 s5 v6 v19 v9 v11
         y3 m3 d3 h3 i3 s3 hour v8 v16 v12,
    nth_error r 10 = Some v10 /\ nth_error r 17 = Some v17
    /\ nth_error r 0 = Some (PyStr name) /\ nth_error r 18 = Some v18
    /\ nth_error r 5 = Some (PyDateTime y5 m5 d5 h5 i5 s5)
    /\ nth_error r 6 = Some v6 /\ nth_error r 19 = Some v19
    /\ nth_error r 9 = Some v9 /\ nth_error r 11 = Some v11
    /\ nth_error r 3 = Some (PyDateTime y3 m3 d3 h3 i3 s3)
    /\ nth_error r 4 = Some (PyStr hour)
    /\ nth_error r 8 = Some v8 /\ nth_error r 16 = Some v16
    /\ nth_error r 12 = Some v12
    /\ ds =
       {| SpecificCharacterSet := "ISO_IR 100";
          PatientID := py_str v17;
          PatientName := normalize_name name ++ " - " ++ py_str v18;
          PatientBirthDate := strftime_Ymd y5 m5 d5;
          PatientSex := v6;
          PatientComments := "ACCOUNT_NUMBER: " ++ py_str v19;
          AccessionNumber := PyStr.zfill 8 (py_str v10);
          RequestedProcedureID := PyStr.zfill 6 (py_str v10);
          RequestedProcedureDescription := v9;
          StudyInstanceUID :=
            uid_root ++ "." ++ py_str v10 ++ "."
            ++ PyStr.replace "_" "." (py_str v17);
          ReferringPhysicianName := or_default v11 (PyStr "Unknown");
          ScheduledProcedureStepSequence :=
            [ {| ScheduledProcedureStepStartDate := strftime_Ymd y3 m3 d3;
                 ScheduledProcedureStepStartTime := PyStr.replace ":" "" hour;
                 ScheduledProcedureStepDescription := v9;
                 ScheduledProcedureStepID := py_str v10;
                 Modality := v8;
                 ScheduledStationAETitle := v18;
                 sched_attributes :=
                   {| ProcedureStepLocation := v16;
                      ScheduledPerformingPhysicianSequence :=
                        [ {| PersonName := or_default v11 (PyStr "Unknown");
                             perf_phys_attributes :=
                               {| PersonIdentifier :=
                                    if py_truthy v12 then py_str v12
                                    else "" |} |} ] |} |} ] |}.
Proof.
  intro H. unfold build_dataset in H. simpl bind in H.
  read_columns H.
  injection H as <-.
  do 24 eexists. repeat (split; [reflexivity|]). reflexivity.
Qed.

(** X3.  A row either builds, and then it is shapeable, or makes the builder
    raise, and then it is not shapeable and the exception is an index, an
    attribute or a type error. *)
Theorem builder_outcome (r : row) :
  match build_dataset r with
  | Ok _ => shapeable r = true
  | Raise e => shapeable r = false /\ In e builder_exceptions
  end.
Proof.
  destruct (build_dataset r) as [ds|e] eqn:H.
  - apply build_dataset_shapeable. now rewrite H.
  - split.
    + destruct (shapeable r) eqn:E; [|reflexivity].
      apply build_dataset_shapeable in E. rewrite H in E. discriminate E.
    + unfold build_dataset in H. simpl bind in H. unfold builder_exceptions.
      repeat match type of H with
             | context [item r ?k] =>
                 unfold item in H at 1;
                 destruct (nth_error r k); simpl in H;
                 [|injection H as <-; simpl; auto]
             | context [method_strip ?v] =>
                 destruct v; simpl in H; try (injection H as <-; simpl; now auto)
             | context [method_strftime_Ymd ?v] =>
                 destruct v; simpl in H; try (injection H as <-; simpl; now auto)
             | context [method_replace ?a ?b ?v] =>
                 destruct v; simpl in H; try (injection H as <-; simpl; now auto)
             | context [Pydicom.method_replace _ _ (Pydicom.store_text ?s)] =>
                 rewrite replace_stored_text in H;
                 destruct (Pydicom.has_backslash s); simpl in H;
                 [injection H as <-; simpl; now auto|]
             | context [Pydicom.person_name (or_default ?v _)] =>
                 rewrite !person_name_physician in H;
                 destruct (names_physician v); simpl in H;
                 [|injection H as <-; simpl; now auto]
             end.
      discriminate H.
Qed.

(** The two conditions of a build that come from the dataset and not from
    the row: what the dataset keeps of the patient identifier can be read
    back as a text, and the physician is accepted as a person name. *)
Lemma build_dataset_accepted (r : row) (ds : Dataset) (physician patient_id : pyval) :
  build_dataset r = Ok ds ->
  nth_error r 11 = Some physician ->
  nth_error r 17 = Some patient_id ->
  names_physician physician = true
  /\ Pydicom.has_backslash (py_str patient_id) = false.
Proof.
  intros Hb H11 H17.
  assert (shapeable r = true) as Hs.
  { apply build_dataset_shapeable. now rewrite Hb. }
  unfold shapeable in Hs. rewrite H11, H17 in Hs.
  destruct (nth_error r 0) as [[| |name|]|]; try discriminate Hs.
  destruct (nth_error r 3) as [[| | |y3 m3 d3 h3 i3 s3]|]; try discriminate Hs.
  destruct (nth_error r 4) as [[| |hour|]|]; try discriminate Hs.
  destruct (nth_error r 5) as [[| | |y5 m5 d5 h5 i5 s5]|]; try discriminate Hs.
  destruct (nth_error r 19); try discriminate Hs.
  apply andb_true_iff in Hs as [Hphys Hpid].
  split; [exact Hphys | now apply negb_true_iff in Hpid].
Qed.

(** ** The physician *)

Lemma uint_str_not_empty (d : Decimal.uint) :
  d <> Decimal.Nil -> NilEmpty.string_of_uint d <> "".
Proof. destruct d; simpl; congruence. Qed.

Lemma int_str_not_empty (z : Z) : int_str z <> "".
Proof.
  unfold int_str. destruct z as [|p|p]; simpl; try discriminate.
  unfold NilZero.string_of_uint.
  pose proof (DecimalPos.Unsigned.to_uint_nonnil p) as Hn.
  destruct (Pos.to_uint p); try congruence; discriminate.
Qed.

Lemma append_not_empty_r (a b : string) : b <> "" -> a ++ b <> "".
Proof. destruct a; simpl; [trivial | discriminate]. Qed.

(** A value that counts as true does not print as the empty text. *)
Lemma py_str_of_truthy (v : pyval) : py_truthy v = true -> py_str v <> "".
Proof.
  destruct v as [|z|s|y mo d h mi sec]; simpl; intro H.
  - discriminate H.
  - apply int_str_not_empty.
  - destruct s; [discriminate H | discriminate].
  - apply append_not_empty_r. discriminate.
Qed.

(** X4.  The referring physician of a built dataset is a text and is never
    empty or missing: it is the physician column when that holds a text
    that is not empty, and the text "Unknown" when the column is NULL,
    the empty text or zero.  No row with anything else in the physician
    column builds. *)
Theorem physician_defaulting (r : row) (ds : Dataset) (physician : pyval) :
  build_dataset r = Ok ds ->
  nth_error r 11 = Some physician ->
  exists name,
    ReferringPhysicianName ds = PyStr name
    /\ name <> ""
    /\ (py_truthy physician = true -> physician = PyStr name)
    /\ (py_truthy physician = false -> name = "Unknown").
Proof.
  intros Hb H11.
  destruct (build_dataset_inversion r ds Hb)
    as (v10 & v17 & name & v18 & y5 & m5 & d5 & h5 & i5 & s5 & v6 & v19 & v9
        & v11 & y3 & m3 & d3 & h3 & i3 & s3 & hour & v8 & v16 & v12
        & _ & E17 & _ & _ & _ & _ & _ & _ & E11 & _ & _ & _ & _ & _ & Eds).
  rewrite H11 in E11. injection E11 as E11. subst v11.
  destruct (build_dataset_accepted r ds physician v17 Hb H11 E17) as [Hphys _].
  subst ds. cbn [ReferringPhysicianName]. unfold or_default.
  destruct physician as [|z|s|y mo d h mi sec]; simpl in Hphys |- *.
  - exists "Unknown". repeat split; discriminate.
  - destruct (z =? 0)%Z; [|discriminate Hphys].
    exists "Unknown". repeat split; discriminate.
  - destruct s as [|c s]; simpl.
    + exists "Unknown". repeat split; discriminate.
    + exists (String c s). repeat split; discriminate.
  - discriminate Hphys.
Qed.

Lemma physician_defaulting_witness :
  exists ds,
    build_dataset later_row = Ok ds
    /\ ReferringPhysicianName ds = PyStr "Unknown".
Proof.
  destruct (build_dataset later_row) as [ds|] eqn:Hb; [|discriminate Hb].
  exists ds. split; [reflexivity|].
  destruct (physician_defaulting later_row ds PyNone Hb eq_refl)
    as (name & Hname & _ & _ & Hdefault).
  rewrite Hname. now rewrite (Hdefault eq_refl).
Defined.

(** The performing physician of the step carries the same name, and the
    identifier given to it is empty exactly when the identifier column is
    NULL, empty or zero.  The builder keeps it under a name that is no
    keyword, so it is an attribute of the step object and no element of
    the step: the step that is encoded holds no performing physician. *)
Lemma performer_is_an_attribute (r : row) (ds : Dataset) (identifier : pyval) :
  build_dataset r = Ok ds ->
  nth_error r 12 = Some identifier ->
  exists step performer,
    ScheduledProcedureStepSequence ds = [step]
    /\ ScheduledPerformingPhysicianSequence (sched_attributes step) = [performer]
    /\ PersonName performer = ReferringPhysicianName ds
    /\ (PersonIdentifier (perf_phys_attributes performer) = ""
        <-> py_truthy identifier = false).
Proof.
  intros Hb H12.
  destruct (build_dataset_inversion r ds Hb)
    as (v10 & v17 & name & v18 & y5 & m5 & d5 & h5 & i5 & s5 & v6 & v19 & v9
        & v11 & y3 & m3 & d3 & h3 & i3 & s3 & hour & v8 & v16 & v12
        & _ & _ & _ & _ & _ & _ & _ & _ & _ & _ & _ & _ & _ & E12 & ->).
  rewrite H12 in E12. injection E12 as E12. subst v12.
  eexists _, _. split; [reflexivity|]. split; [reflexivity|].
  split; [reflexivity|]. simpl.
  destruct (py_truthy identifier) eqn:E.
  - split; [|discriminate]. intro Hs. now apply py_str_of_truthy in E.
  - split; reflexivity.
Qed.

(** ** Dates and times *)

Lemma all_chars_append (p : ascii -> bool) (a b : string) :
  PyStr.all_chars p (a ++ b) = PyStr.all_chars p a && PyStr.all_chars p b.
Proof.
  induction a as [|c a IH]; simpl; [reflexivity|].
  now rewrite IH, andb_assoc.
Qed.

(** A number from 0 up to 10^n - 1, zero-filled to n places, is n digits. *)
Lemma zero_filled_number (n : nat) (z : Z) :
  0 < n -> (0 <= z < 10 ^ Z.of_nat n)%Z ->
  String.length (PyStr.zfill n (int_str z)) = n
  /\ PyStr.all_chars PyStr.is_digit (PyStr.zfill n (int_str z)) = true.
Proof.
  intros Hn Hz.
  destruct (zfill_digits n (int_str z)) as (_ & L & D);
    [apply int_str_digits; lia | now apply int_str_length | now split].
Qed.

(** Reading digits after an accumulator stays below the next value of the
    accumulator. *)
Lemma of_uint_acc_upper (d : Decimal.uint) :
  forall acc,
    (Z.pos (Pos.of_uint_acc d acc)
     < (Z.pos acc + 1) * 10 ^ Z.of_nat (Decimal.nb_digits d))%Z.
Proof.
  induction d as [|d IH|d IH|d IH|d IH|d IH|d IH|d IH|d IH|d IH|d IH];
    intro acc; cbn [Pos.of_uint_acc Decimal.nb_digits].
  1: simpl; lia.
  all: rewrite Nat2Z.inj_succ, Z.pow_succ_r by lia;
       match goal with
       | |- context [Pos.of_uint_acc ?x ?a] =>
           specialize (IH a);
           pose proof (Z.pow_pos_nonneg 10 (Z.of_nat (Decimal.nb_digits x))
                         ltac:(lia) ltac:(lia))
       end;
       nia.
Qed.

(** A positive number from 10^n on prints in more than n digits. *)
Lemma pos_str_length_lower (p : positive) (n : nat) :
  (10 ^ Z.of_nat n <= Z.pos p)%Z ->
  n < String.length (NilEmpty.string_of_uint (Pos.to_uint p)).
Proof.
  intro H. rewrite uint_str_length.
  pose proof (DecimalPos.Unsigned.of_to p) as Hof.
  pose proof (to_uint_head p) as Hhd.
  pose proof (DecimalPos.Unsigned.to_uint_nonnil p) as Hnil.
  destruct (Pos.to_uint p) as [|d|d|d|d|d|d|d|d|d|d] eqn:E;
    [congruence | | | | | | | | | |].
  1: { simpl in Hhd. pose proof (DecimalFacts.nb_digits_nzhead d) as Hle.
       rewrite Hhd in Hle. simpl in Hle. lia. }
  all: cbn [Pos.of_uint] in Hof; injection Hof as Hof;
       cbn [Decimal.nb_digits];
       match type of Hof with
       | Pos.of_uint_acc ?x ?a = _ =>
           pose proof (of_uint_acc_upper x a) as Hup;
           rewrite Hof in Hup;
           destruct (Nat.le_gt_cases (S (Decimal.nb_digits x)) n) as [Hle|Hgt];
           [|lia];
           exfalso;
           assert (10 * 10 ^ Z.of_nat (Decimal.nb_digits x) <= 10 ^ Z.of_nat n)%Z
             by (rewrite <- Z.pow_succ_r, <- Nat2Z.inj_succ by lia;
                 apply Z.pow_le_mono_r; lia)
       end;
       nia.
Qed.

(** A year of four digits prints in four digits. *)
Lemma year_str_shape (y : Z) :
  (1000 <= y <= 9999)%Z ->
  String.length (int_str y) = 4
  /\ PyStr.all_chars PyStr.is_digit (int_str y) = true.
Proof.
  intro Hy. split; [|apply int_str_digits; lia].
  assert (String.length (int_str y) <= 4) as Hle
    by (apply int_str_length; [simpl; lia | lia]).
  assert (3 < String.length (int_str y)) as Hgt.
  { unfold int_str. destruct y as [|p|p]; [lia| |lia].
    unfold Z.to_int, NilZero.string_of_int, NilZero.string_of_uint.
    pose proof (pos_str_length_lower p 3 ltac:(simpl; lia)) as Hlen.
    pose proof (DecimalPos.Unsigned.to_uint_nonnil p) as Hnil.
    destruct (Pos.to_uint p); [congruence | assumption..]. }
  lia.
Qed.

Lemma strftime_Ymd_shape (y m d : Z) :
  (1000 <= y <= 9999)%Z -> (1 <= m <= 12)%Z -> (1 <= d <= 31)%Z ->
  String.length (strftime_Ymd y m d) = 8
  /\ PyStr.all_chars PyStr.is_digit (strftime_Ymd y m d) = true.
Proof.
  intros Hy Hm Hd. unfold strftime_Ymd, two_digits.
  destruct (year_str_shape y Hy) as [Ly Dy].
  destruct (zero_filled_number 2 m) as [Lm Dm]; [lia | simpl; lia|].
  destruct (zero_filled_number 2 d) as [Ld Dd]; [lia | simpl; lia|].
  rewrite !length_append, !all_chars_append, Ly, Lm, Ld, Dy, Dm, Dd.
  split; reflexivity.
Qed.

(** Before the year 1000 the date is shorter. *)
Example strftime_Ymd_early_year : strftime_Ymd 999 1 1 = "9990101".
Proof. reflexivity. Qed.

(** X5.  The two dates of a built dataset, the birth date of the patient and
    the start date of the scheduled step, are each exactly eight decimal
    digits, for every date of a four-digit year. *)
Theorem dates_are_eight_digits (r : row) (ds : Dataset)
    (appointment_date birth_date : pyval) :
  build_dataset r = Ok ds ->
  nth_error r 3 = Some appointment_date ->
  nth_error r 5 = Some birth_date ->
  valid_date appointment_date ->
  valid_date birth_date ->
  String.length (PatientBirthDate ds) = 8
  /\ PyStr.all_chars PyStr.is_digit (PatientBirthDate ds) = true
  /\ exists step,
       ScheduledProcedureStepSequence ds = [step]
       /\ String.length (ScheduledProcedureStepStartDate step) = 8
       /\ PyStr.all_chars PyStr.is_digit (ScheduledProcedureStepStartDate step)
          = true.
Proof.
  intros Hb H3 H5 Va Vb.
  destruct (build_dataset_inversion r ds Hb)
    as (v10 & v17 & name & v18 & y5 & m5 & d5 & h5 & i5 & s5 & v6 & v19 & v9
        & v11 & y3 & m3 & d3 & h3 & i3 & s3 & hour & v8 & v16 & v12
        & _ & _ & _ & _ & E5 & _ & _ & _ & _ & E3 & _ & _ & _ & _ & ->).
  rewrite H3 in E3. injection E3 as E3. subst appointment_date.
  rewrite H5 in E5. injection E5 as E5. subst birth_date.
  destruct Va as (Ya & Ma & Da). destruct Vb as (Yb & Mb & Db).
  destruct (strftime_Ymd_shape y5 m5 d5 Yb Mb Db) as [L5 D5].
  destruct (strftime_Ymd_shape y3 m3 d3 Ya Ma Da) as [L3 D3].
  simpl. split; [exact L5|]. split; [exact D5|].
  eexists. split; [reflexivity|]. simpl. now split.
Qed.

Lemma dates_are_eight_digits_witness :
  exists ds,
    build_dataset sample_row = Ok ds
    /\ PatientBirthDate ds = "19801201"
    /\ String.length (PatientBirthDate ds) = 8.
Proof.
  destruct (build_dataset sample_row) as [ds|] eqn:Hb; [|discriminate Hb].
  exists ds. split; [reflexivity|].
  destruct (dates_are_eight_digits sample_row ds
              (PyDateTime 2024 3 9 0 0 0) (PyDateTime 1980 12 1 0 0 0)
              Hb eq_refl eq_refl ltac:(simpl; lia) ltac:(simpl; lia))
    as (L & _).
  split; [|exact L].
  injection Hb as <-. reflexivity.
Defined.

Lemma replace_by_nothing (c : ascii) (s : string) :
  PyStr.replace c "" s = without_char c s.
Proof.
  induction s as [|d s IH]; simpl; [reflexivity|].
  rewrite IH. destruct (Ascii.eqb d c); reflexivity.
Qed.

Lemma free_of_without_char (c : ascii) (s : string) :
  free_of c (without_char c s) = true.
Proof.
  unfold free_of. induction s as [|d s IH]; simpl; [reflexivity|].
  destruct (Ascii.eqb d c) eqn:E; simpl; [exact IH | now rewrite E].
Qed.

Lemma without_char_free (c : ascii) (s : string) :
  free_of c s = true -> without_char c s = s.
Proof.
  unfold free_of. induction s as [|d s IH]; simpl; [reflexivity|].
  intro H. apply andb_prop in H as [Hd Hs]. apply negb_true_iff in Hd.
  now rewrite Hd, IH.
Qed.

(** X6.  The start time of the scheduled step is the hour column with every
    colon taken out and every other character kept in its place: it holds
    no colon, and an hour without colons goes through unchanged. *)
Theorem start_time_without_colons (r : row) (ds : Dataset) (hour : string) :
  build_dataset r = Ok ds ->
  nth_error r 4 = Some (PyStr hour) ->
  exists step,
    ScheduledProcedureStepSequence ds = [step]
    /\ ScheduledProcedureStepStartTime step = without_char ":" hour
    /\ free_of ":" (ScheduledProcedureStepStartTime step) = true
    /\ (free_of ":" hour = true -> ScheduledProcedureStepStartTime step = hour).
Proof.
  intros Hb H4.
  destruct (build_dataset_inversion r ds Hb)
    as (v10 & v17 & name & v18 & y5 & m5 & d5 & h5 & i5 & s5 & v6 & v19 & v9
        & v11 & y3 & m3 & d3 & h3 & i3 & s3 & hour' & v8 & v16 & v12
        & _ & _ & _ & _ & _ & _ & _ & _ & _ & _ & E4 & _ & _ & _ & ->).
  rewrite H4 in E4. injection E4 as E4. subst hour'.
  eexists. split; [reflexivity|]. simpl. rewrite replace_by_nothing.
  split; [reflexivity|]. split; [apply free_of_without_char|].
  apply without_char_free.
Qed.

Lemma start_time_without_colons_witness :
  exists ds step,
    build_dataset sample_row = Ok ds
    /\ ScheduledProcedureStepSequence ds = [step]
    /\ ScheduledProcedureStepStartTime step = "0830".
Proof.
  destruct (build_dataset sample_row) as [ds|] eqn:Hb; [|discriminate Hb].
  destruct (start_time_without_colons sample_row ds "08:30" Hb eq_refl)
    as (step & Hs & Ht & _).
  exists ds, step. split; [reflexivity|]. split; [exact Hs | exact Ht].
Defined.

(** ** Identifiers that do not fit *)

(** Zero-filling never shortens: the result is as long as the wider of the
    width and the text, and a text that fills the width is returned as it
    is. *)
Lemma zfill_length (width : nat) (s : string) :
  String.length (PyStr.zfill width s) = Nat.max width (String.length s)
  /\ (width <= String.length s -> PyStr.zfill width s = s).
Proof.
  unfold PyStr.zfill.
  destruct (width <=? String.length s)%nat eqn:E.
  - apply Nat.leb_le in E. split; [lia | reflexivity].
  - apply Nat.leb_gt in E. split; [|lia].
    destruct s as [|c s]; simpl in *.
    + rewrite length_zeros. lia.
    + destruct (PyStr.is_sign c); simpl;
        rewrite length_append, length_zeros; simpl; lia.
Qed.

(** X7.  The accession number and the requested procedure id are never cut: an
    appointment id that prints in 8 (6) characters or more is passed on as
    it is, so the accession number is as long as the wider of 8 and the
    id, and the procedure id as long as the wider of 6 and the id. *)
Theorem identifiers_are_never_truncated (r : row) (ds : Dataset)
    (appointment_id : pyval) :
  build_dataset r = Ok ds ->
  nth_error r 10 = Some appointment_id ->
  let id := py_str appointment_id in
  String.length (AccessionNumber ds) = Nat.max 8 (String.length id)
  /\ String.length (RequestedProcedureID ds) = Nat.max 6 (String.length id)
  /\ (8 <= String.length id -> AccessionNumber ds = id)
  /\ (6 <= String.length id -> RequestedProcedureID ds = id).
Proof.
  intros Hb H10 id.
  destruct (build_dataset_fields r ds Hb)
    as (v10 & v17 & name & v18 & E10 & _ & _ & _ & _ & _ & Hacc & Hproc & _).
  rewrite H10 in E10. injection E10 as E10. subst v10.
  rewrite Hacc, Hproc.
  destruct (zfill_length 8 id) as [L8 I8].
  destruct (zfill_length 6 id) as [L6 I6].
  repeat split; assumption.
Qed.

Lemma identifiers_are_never_truncated_witness :
  exists ds,
    build_dataset (set_column 10 (PyInt 123456789) sample_row) = Ok ds
    /\ AccessionNumber ds = "123456789"
    /\ RequestedProcedureID ds = "123456789".
Proof.
  destruct (build_dataset (set_column 10 (PyInt 123456789) sample_row))
    as [ds|] eqn:Hb; [|discriminate Hb].
  exists ds. split; [reflexivity|].
  destruct (identifiers_are_never_truncated _ ds (PyInt 123456789) Hb eq_refl)
    as (_ & _ & H8 & H6).
  split; [apply H8 | apply H6]; vm_compute; lia.
Defined.

(** ** When the study identifier tells rows apart *)

Lemma append_cancel_l (a x y : string) : a ++ x = a ++ y -> x = y.
Proof.
  induction a as [|c a IH]; simpl; [trivial|].
  intro H. injection H as H. now apply IH.
Qed.

(** Two texts free of periods, each followed by a period and more, are
    equal when the whole is. *)
Lemma split_at_first_period (a1 : string) :
  forall a2 q1 q2,
    free_of "." a1 = true -> free_of "." a2 = true ->
    a1 ++ "." ++ q1 = a2 ++ "." ++ q2 ->
    a1 = a2 /\ q1 = q2.
Proof.
  unfold free_of.
  induction a1 as [|c a1 IH]; intros [|d a2] q1 q2 H1 H2 E; simpl in *.
  - injection E as E. now split.
  - injection E as Ed _. subst d. discriminate H2.
  - injection E as Ec _. subst c. discriminate H1.
  - injection E as Ec E. subst d.
    apply andb_prop in H1 as [_ H1]. apply andb_prop in H2 as [_ H2].
    destruct (IH a2 q1 q2 H1 H2 E) as [-> ->]. now split.
Qed.

(** On texts free of periods, turning underscores into periods loses
    nothing. *)
Lemma replace_underscores_injective (p1 : string) :
  forall p2,
    free_of "." p1 = true -> free_of "." p2 = true ->
    PyStr.replace "_" "." p1 = PyStr.replace "_" "." p2 -> p1 = p2.
Proof.
  unfold free_of.
  induction p1 as [|c p1 IH]; intros [|d p2] H1 H2 E; simpl in *.
  - reflexivity.
  - destruct (Ascii.eqb d "_"); discriminate E.
  - destruct (Ascii.eqb c "_"); discriminate E.
  - apply andb_prop in H1 as [Hc H1]. apply andb_prop in H2 as [Hd H2].
    apply negb_true_iff in Hc, Hd.
    destruct (Ascii.eqb_spec c "_") as [->|Nc];
      destruct (Ascii.eqb_spec d "_") as [->|Nd];
      simpl in E.
    + injection E as E. now rewrite (IH p2 H1 H2 E).
    + injection E as Ed _. subst d. discriminate Hd.
    + injection E as Ec _. subst c. discriminate Hc.
    + injection E as Ecd E. subst d. now rewrite (IH p2 H1 H2 E).
Qed.

(** X8.  Two built datasets with the same study identifier come from the same
    appointment id and the same patient identifier, provided neither the
    appointment ids nor the patient identifiers hold a period. *)
Theorem study_uid_tells_rows_apart (r1 r2 : row) (ds1 ds2 : Dataset)
    (appointment1 appointment2 patient1 patient2 : pyval) :
  build_dataset r1 = Ok ds1 ->
  build_dataset r2 = Ok ds2 ->
  nth_error r1 10 = Some appointment1 -> nth_error r1 17 = Some patient1 ->
  nth_error r2 10 = Some appointment2 -> nth_error r2 17 = Some patient2 ->
  free_of "." (py_str appointment1) = true ->
  free_of "." (py_str appointment2) = true ->
  free_of "." (py_str patient1) = true ->
  free_of "." (py_str patient2) = true ->
  StudyInstanceUID ds1 = StudyInstanceUID ds2 ->
  py_str appointment1 = py_str appointment2
  /\ py_str patient1 = py_str patient2.
Proof.
  intros Hb1 Hb2 A1 P1 A2 P2 Fa1 Fa2 Fp1 Fp2 E.
  destruct (build_dataset_fields r1 ds1 Hb1)
    as (a1 & p1 & n1 & t1 & Ea1 & Ep1 & _ & _ & _ & _ & _ & _ & U1 & _).
  destruct (build_dataset_fields r2 ds2 Hb2)
    as (a2 & p2 & n2 & t2 & Ea2 & Ep2 & _ & _ & _ & _ & _ & _ & U2 & _).
  rewrite A1 in Ea1. injection Ea1 as Ea1. subst a1.
  rewrite P1 in Ep1. injection Ep1 as Ep1. subst p1.
  rewrite A2 in Ea2. injection Ea2 as Ea2. subst a2.
  rewrite P2 in Ep2. injection Ep2 as Ep2. subst p2.
  rewrite U1, U2 in E.
  apply append_cancel_l in E. apply (append_cancel_l ".") in E.
  destruct (split_at_first_period _ _ _ _ Fa1 Fa2 E) as [Ea Ep].
  split; [exact Ea|].
  now apply replace_underscores_injective.
Qed.

Lemma study_uid_tells_rows_apart_witness :
  exists ds,
    build_dataset sample_row = Ok ds
    /\ py_str (PyStr "MX_0042_7") = py_str (PyStr "MX_0042_7").
Proof.
  destruct (build_dataset sample_row) as [ds|] eqn:Hb; [|discriminate Hb].
  exists ds. split; [reflexivity|].
  destruct (build_dataset (set_column 9 (PyStr "KNEE") sample_row))
    as [ds'|] eqn:Hb'; [|discriminate Hb'].
  refine (proj2 (study_uid_tells_rows_apart
                   sample_row (set_column 9 (PyStr "KNEE") sample_row) ds ds'
                   (PyInt 4711) (PyInt 4711) (PyStr "MX_0042_7") (PyStr "MX_0042_7")
                   Hb Hb' eq_refl eq_refl eq_refl eq_refl
                   eq_refl eq_refl eq_refl eq_refl _)).
  injection Hb as <-. injection Hb' as <-. reflexivity.
Defined.

(** Without that proviso the identifier does not tell rows apart: the
    patient identifiers "MX_1" and "MX.1" give the same one. *)
Example study_uid_collision :
  exists ds1 ds2,
    build_dataset (set_column 17 (PyStr "MX_1") sample_row) = Ok ds1
    /\ build_dataset (set_column 17 (PyStr "MX.1") sample_row) = Ok ds2
    /\ StudyInstanceUID ds1 = StudyInstanceUID ds2.
Proof. eexists _, _. repeat split. Qed.

(** ** What the normalization does to the tokens of a name *)

Lemma free_of_space_append (a b : string) :
  free_of_space (a ++ b) = free_of_space a && free_of_space b.
Proof. apply all_chars_append. Qed.

Lemma flush_tokens (cur : string) :
  free_of_space cur = true -> Forall is_token (PyStr.flush cur).
Proof.
  intro H. unfold PyStr.flush. destruct cur as [|c cur]; simpl; constructor;
    [|constructor]. split; [discriminate | exact H].
Qed.

(** What the splitter gives are tokens. *)
Lemma split_from_tokens (s : string) :
  forall cur, free_of_space cur = true ->
              Forall is_token (PyStr.split_from cur s).
Proof.
  induction s as [|c s IH]; intros cur H; simpl.
  - now apply flush_tokens.
  - destruct (PyStr.is_space c) eqn:Hc.
    + apply Forall_app. split; [now apply flush_tokens | now apply IH].
    + apply IH. rewrite free_of_space_append, H. unfold free_of_space. simpl.
      now rewrite Hc.
Qed.

(** The splitter reads a run free of whitespace into the token it holds. *)
Lemma split_from_word (t : string) :
  forall cur rest,
    free_of_space t = true ->
    PyStr.split_from cur (t ++ rest) = PyStr.split_from (cur ++ t) rest.
Proof.
  unfold free_of_space.
  induction t as [|c t IH]; intros cur rest H; simpl.
  - now rewrite append_empty_r.
  - simpl in H. apply andb_prop in H as [Hc Ht].
    apply negb_true_iff in Hc. rewrite Hc, (IH _ _ Ht).
    now rewrite append_assoc.
Qed.

(** Tokens joined by single spaces split back into themselves. *)
Lemma split_join (parts : list string) :
  Forall is_token parts -> PyStr.split (PyStr.join " " parts) = parts.
Proof.
  unfold PyStr.split, PyStr.join.
  induction 1 as [|p parts [Hne Hp] Hrest IH]; [reflexivity|].
  destruct parts as [|q parts].
  - simpl. rewrite <- (append_empty_r p) at 1.
    rewrite (split_from_word p "" "" Hp). simpl.
    unfold PyStr.flush. destruct p; [congruence | reflexivity].
  - change (String.concat " " (p :: q :: parts))
      with (p ++ String " " (String.concat " " (q :: parts))).
    rewrite (split_from_word p "" _ Hp).
    set (joined := String.concat " " (q :: parts)) in *.
    change (PyStr.split_from ("" ++ p) (String " " joined))
      with (PyStr.flush p ++ PyStr.split_from "" joined)%list.
    rewrite IH. unfold PyStr.flush. destruct p; [congruence | reflexivity].
Qed.

(** X9.  The normalization neither loses, adds nor alters a token: the tokens
    of the normalized name are those of the name, the last two moved to
    the front when there are three or more, all in place otherwise. *)
Theorem normalization_rotates_tokens (name : string) :
  exists front back,
    PyStr.split name = (front ++ back)%list
    /\ PyStr.split (normalize_name name) = (back ++ front)%list
    /\ (length (PyStr.split name) < 3 -> front = [])
    /\ (3 <= length (PyStr.split name) -> length back = 2).
Proof.
  destruct (Nat.lt_ge_cases (length (PyStr.split name)) 3) as [Hlt|Hge].
  - exists [], (PyStr.split name). rewrite app_nil_r.
    unfold normalize_name. rewrite format_name_short by now rewrite split_strip.
    rewrite split_strip.
    split; [reflexivity|]. split; [reflexivity|]. split; [reflexivity | lia].
  - destruct (snoc2_of_three _ Hge) as (given & a & b & E & Hg).
    exists given, [a; b]. split; [exact E|]. split; [|split; [lia | reflexivity]].
    unfold normalize_name.
    rewrite (format_name_three (PyStr.strip name) given a b);
      [|now rewrite split_strip | exact Hg].
    assert (Forall is_token (a :: b :: given)) as Htok.
    { pose proof (split_from_tokens name "" eq_refl) as H.
      fold (PyStr.split name) in H. rewrite E in H.
      apply Forall_app in H as [Hgiven Hab].
      apply Forall_cons_iff in Hab as [Ha Hab].
      apply Forall_cons_iff in Hab as [Hb _].
      constructor; [exact Ha|]. constructor; [exact Hb | exact Hgiven]. }
    transitivity (PyStr.split (PyStr.join " " (a :: b :: given)));
      [|now apply split_join].
    f_equal. unfold PyStr.join.
    destruct given as [|g given]; [congruence | reflexivity].
Qed.

(* ===================================================================== *)
(** * More on the schedule query *)
(* ===================================================================== *)

(** X11.  One run of the query adds one of three traces: nothing when no
    connection is made, a connection opened and closed when no cursor is
    got, and otherwise a connection and a cursor opened and then closed,
    the cursor first.  In each of them everything opened is closed. *)
Theorem query_trace_shapes (db : OracleDb) (requestor_ae : string) (w : trace) :
  exists t,
    snd (get_worklist_from_db db requestor_ae w) = (w ++ t)%list
    /\ In t query_traces
    /\ all_released t
    /\ (t = [] <-> makedsn_fault db <> None \/ connect_fault db <> None).
Proof.
  run_query_steps. unfold query_traces, full_query_trace.
  destruct (makedsn_fault db) as [[]|] eqn:E1;
    [exists []; rewrite app_nil_r; simpl;
     repeat split; auto; left; discriminate..|].
  destruct (connect_fault db) as [[]|] eqn:E2;
    [exists []; rewrite app_nil_r; simpl;
     repeat split; auto; right; discriminate..|].
  assert (forall t : trace, t <> [] ->
            (t = [] <-> None <> (None : option exn) \/ None <> (None : option exn)))
    as Hno by (intros t Ht; split; [congruence | intros [H|H]; congruence]).
  destruct (cursor_fault db) as [[]|];
    [exists [ConnOpened; ConnClosed]; simpl; rewrite <- !app_assoc;
     repeat split; auto; apply Hno; discriminate..|].
  destruct (execute_fault db) as [[]|];
    [exists [ConnOpened; CursorOpened; CursorClosed; ConnClosed]; simpl;
     rewrite <- !app_assoc; repeat split; auto; apply Hno; discriminate..|].
  simpl.
  destruct (Sql.run_query (RIS_WORKLIST_VIEW db) requestor_ae) as [rows|[]];
    [|exists [ConnOpened; CursorOpened; CursorClosed; ConnClosed]; simpl;
      rewrite <- !app_assoc; repeat split; auto; apply Hno; discriminate..].
  destruct (fetchall_fault db) as [[]|];
    exists [ConnOpened; CursorOpened; CursorClosed; ConnClosed]; simpl;
    rewrite <- !app_assoc; repeat split; auto; apply Hno; discriminate.
Qed.

(** ** Order and duplicates *)

Module OrderFacts.
Import Sql.

Lemma pyval_eqb_refl (v : pyval) : pyval_eqb v v = true.
Proof.
  destruct v; simpl; rewrite ?Z.eqb_refl, ?String.eqb_refl; reflexivity.
Qed.

Lemma row_eqb_refl (r : row) : row_eqb r r = true.
Proof.
  induction r as [|v r IH]; simpl; [reflexivity|].
  now rewrite pyval_eqb_refl, IH.
Qed.

Lemma NoDup_filter {A} (f : A -> bool) (l : list A) :
  NoDup l -> NoDup (filter f l).
Proof.
  induction 1 as [|x l Hx _ IH]; simpl; [constructor|].
  destruct (f x); [|exact IH].
  constructor; [|exact IH]. intro H. apply filter_In in H. tauto.
Qed.

Lemma NoDup_distinct (rows : list row) : NoDup (distinct rows).
Proof.
  induction rows as [|r rows IH]; simpl; constructor.
  - intro H. apply filter_In in H as [_ H].
    rewrite row_eqb_refl in H. discriminate H.
  - now apply NoDup_filter.
Qed.

Lemma insert_by_hour_perm (r : row) (rows : list row) :
  Permutation (insert_by_hour r rows) (r :: rows).
Proof.
  induction rows as [|x rows IH]; simpl; [reflexivity|].
  destruct (hour_le r x); [reflexivity|].
  rewrite IH. apply perm_swap.
Qed.

Lemma order_by_hour_perm (rows : list row) :
  Permutation (order_by_hour rows) rows.
Proof.
  unfold order_by_hour. induction rows as [|r rows IH]; simpl; [reflexivity|].
  rewrite insert_by_hour_perm. now constructor.
Qed.

Lemma fields_le_total (a : list Z) :
  forall b, fields_le a b = true \/ fields_le b a = true.
Proof.
  induction a as [|x a IH]; intros [|y b]; simpl; auto.
  destruct (Z.compare_spec x y) as [->|Hlt|Hgt].
  - rewrite Z.eqb_refl, Z.ltb_irrefl. simpl. apply IH.
  - left. apply Z.ltb_lt in Hlt. now rewrite Hlt.
  - right. apply Z.ltb_lt in Hgt. now rewrite Hgt.
Qed.

(** Of two rows, one is before the other. *)
Lemma hour_le_total (a b : row) : hour_le a b = true \/ hour_le b a = true.
Proof.
  unfold hour_le.
  destruct (nth_error a HOUR_column) as [[|x|x|y1 m1 d1 h1 i1 s1]|];
    destruct (nth_error b HOUR_column) as [[|y|y|y2 m2 d2 h2 i2 s2]|]; auto.
  - destruct (Z.leb_spec x y); [now left|]. right. apply Z.leb_le. lia.
  - apply String.leb_total.
  - apply fields_le_total.
Qed.

Lemma insert_by_hour_sorted (r : row) (rows : list row) :
  Sorted hour_ordered rows -> Sorted hour_ordered (insert_by_hour r rows).
Proof.
  induction 1 as [|x rows Hs IH Hhd]; simpl; [repeat constructor|].
  destruct (hour_le r x) eqn:E.
  - constructor; [now constructor|]. constructor. exact E.
  - constructor; [exact IH|].
    assert (hour_ordered x r) as Hxr.
    { destruct (hour_le_total r x) as [H|H]; [congruence | exact H]. }
    destruct rows as [|y rows]; simpl; [now constructor|].
    destruct (hour_le r y); constructor; [exact Hxr|].
    now inversion Hhd.
Qed.

Lemma order_by_hour_sorted (rows : list row) :
  Sorted hour_ordered (order_by_hour rows).
Proof.
  unfold order_by_hour. induction rows as [|r rows IH]; simpl; [constructor|].
  now apply insert_by_hour_sorted.
Qed.

(** What the statement returns: rows of the view, each once, in ascending
    order of their HOUR keys. *)
Lemma run_query_result (view : list row) (aetitle : string) (rows : list row) :
  run_query view aetitle = Ok rows ->
  NoDup rows /\ Sorted hour_ordered rows /\ incl rows view.
Proof.
  unfold run_query. destruct (Regex.parse (pattern aetitle)) as [re|];
    [|discriminate].
  intro H. injection H as <-. split; [|split].
  - apply (Permutation_NoDup (l := distinct (filter (where_clause re) view)));
      [symmetry; apply order_by_hour_perm | apply NoDup_distinct].
  - apply order_by_hour_sorted.
  - intros r Hr.
    rewrite SqlFacts.In_order_by_hour, SqlFacts.In_distinct, filter_In in Hr.
    tauto.
Qed.

End OrderFacts.

(** The query returns the empty list or what the statement returns. *)
Lemma get_worklist_from_db_result (db : OracleDb) (requestor_ae : string)
    (w : trace) :
  exists rows,
    fst (get_worklist_from_db db requestor_ae w) = Ok rows
    /\ (rows = []
        \/ Sql.run_query (RIS_WORKLIST_VIEW db) requestor_ae = Ok rows).
Proof.
  run_query_steps.
  destruct (makedsn_fault db) as [[]|]; [eexists; split; [reflexivity | now left]..|].
  destruct (connect_fault db) as [[]|]; [eexists; split; [reflexivity | now left]..|].
  destruct (cursor_fault db) as [[]|]; [eexists; split; [reflexivity | now left]..|].
  destruct (execute_fault db) as [[]|]; [eexists; split; [reflexivity | now left]..|].
  simpl.
  destruct (Sql.run_query (RIS_WORKLIST_VIEW db) requestor_ae) as [rows|[]];
    [|eexists; split; [reflexivity | now left]..].
  destruct (fetchall_fault db) as [[]|];
    eexists; (split; [reflexivity|]); auto.
Qed.

(** X12.  Whatever happens in the database, the query hands its caller a list
    of rows of the view with no row twice, in ascending order of the HOUR
    keys (the order of the text for hours held as text, NULL last). *)
Theorem worklist_is_distinct_and_ordered (db : OracleDb) (requestor_ae : string)
    (w : trace) :
  exists rows,
    fst (get_worklist_from_db db requestor_ae w) = Ok rows
    /\ NoDup rows
    /\ Sorted hour_ordered rows
    /\ incl rows (RIS_WORKLIST_VIEW db).
Proof.
  destruct (get_worklist_from_db_result db requestor_ae w) as (rows & E & [->|Hq]).
  - exists []. split; [exact E|]. split; [constructor|].
    split; [constructor | intros r []].
  - exists rows. split; [exact E|].
    exact (OrderFacts.run_query_result _ requestor_ae rows Hq).
Qed.

(** Two appointments of one endpoint come back the earlier first, and a
    row the view holds twice comes back once. *)
Example worklist_order_example :
  fst (get_worklist_from_db
         (healthy_db [later_row; sample_row; later_row]) "AE1" [])
  = Ok [sample_row; later_row].
Proof. reflexivity. Qed.

(** ** Identities and patterns *)

(** X13.  When the database answers, an endpoint whose identity holds no
    pattern operator and no comma gets exactly the rows of the view whose
    endpoint list holds the identity as a whole token. *)
Theorem worklist_of_plain_identity (view : list row) (requestor_ae : string)
    (w : trace) :
  PyStr.all_chars (fun c => negb (Regex.is_operator c)) requestor_ae = true ->
  Regex.comma_free requestor_ae ->
  exists rows,
    fst (get_worklist_from_db (healthy_db view) requestor_ae w) = Ok rows
    /\ forall r,
         In r rows
         <-> In r view
             /\ exists aetitles,
                  nth_error r Sql.AETitle_column = Some (PyStr aetitles)
                  /\ aetitles <> ""
                  /\ In requestor_ae (tokens "," aetitles).
Proof.
  intros Hplain Hfree.
  destruct (SqlFacts.run_query_whole_token view requestor_ae Hplain Hfree)
    as (rows & Hq & Hrows).
  exists rows. split; [|exact Hrows].
  now rewrite (get_worklist_from_db_completes (healthy_db view) requestor_ae w rows
                 eq_refl eq_refl eq_refl eq_refl eq_refl Hq).
Qed.

Lemma worklist_of_plain_identity_witness :
  exists rows,
    fst (get_worklist_from_db (healthy_db [sample_row; row_for_AE10]) "AE1" [])
    = Ok rows
    /\ In sample_row rows /\ ~ In row_for_AE10 rows.
Proof.
  destruct (worklist_of_plain_identity [sample_row; row_for_AE10] "AE1" []
              eq_refl eq_refl) as (rows & E & Hrows).
  exists rows. split; [exact E|]. split.
  - apply Hrows. split; [now left|].
    exists "AE1,AE2". repeat split; [discriminate | now left].
  - intro H. apply Hrows in H as (_ & aetitles & Hcol & _ & Htok).
    injection Hcol as <-. simpl in Htok.
    destruct Htok as [H|[H|[]]]; discriminate H.
Defined.




(* ===================================================================== *)
(** * More on the Find handler *)
(* ===================================================================== *)

(** X15.  A failure of the retrieval reaches the requestor as an empty
    schedule: the handler answers with the one success status and no
    dataset, exactly as when no row matches. *)
Theorem find_masks_retrieval_failure (db : OracleDb) (requestor_ae : string)
    (w : trace) :
  retrieval_fails db requestor_ae ->
  fst (handle_find db requestor_ae w) = Ok [(STATUS_SUCCESS, None)].
Proof.
  intro H.
  now rewrite (handle_find_after_query db requestor_ae w []
                 (get_worklist_from_db_fails db requestor_ae w H)).
Qed.

Lemma find_masks_retrieval_failure_witness :
  In sample_row (RIS_WORKLIST_VIEW unreachable_db)
  /\ fst (handle_find unreachable_db "AE1" []) = Ok [(STATUS_SUCCESS, None)].
Proof.
  split; [now left|].
  apply find_masks_retrieval_failure. right; left. simpl. discriminate.
Defined.

(** X16.  The handler touches the outside world through the query alone: its
    trace is the trace of the query, so the cursor and the connection are
    closed when it returns and also when a row makes it raise. *)
Theorem find_leaves_nothing_open (db : OracleDb) (requestor_ae : string)
    (w : trace) :
  snd (handle_find db requestor_ae w)
  = snd (get_worklist_from_db db requestor_ae w)
  /\ exists t,
       snd (handle_find db requestor_ae w) = (w ++ t)%list
       /\ all_released t.
Proof.
  assert (snd (handle_find db requestor_ae w)
          = snd (get_worklist_from_db db requestor_ae w)) as E.
  { unfold handle_find. simpl bind.
    destruct (get_worklist_from_db_returns db requestor_ae w) as [rows Hr].
    destruct (get_worklist_from_db db requestor_ae w) as [res w'].
    simpl in Hr. subst res. simpl. now destruct rows. }
  split; [exact E|]. rewrite E.
  destruct (get_worklist_from_db_releases db requestor_ae w) as (t & Ht & Hrel).
  now exists t.
Qed.

(** What the loop returns, when it returns. *)
Lemma find_loop_result (rows : list row) :
  forall responses result,
    find_loop responses rows = Ok result ->
    exists dss,
      result = (responses ++ pending_responses dss)%list
      /\ Forall2 (fun r ds => build_dataset r = Ok ds) rows dss.
Proof.
  induction rows as [|r rows IH]; intros responses result H; simpl in H.
  - injection H as <-. exists []. simpl. rewrite app_nil_r. now split.
  - destruct (build_dataset r) as [ds|e] eqn:Hr; [|discriminate H].
    destruct (IH _ _ H) as (dss & -> & Hall).
    exists (ds :: dss). split; [now rewrite <- app_assoc | now constructor].
Qed.

(** X17.  Whatever the handler returns is one of two things: the success status
    alone, with no dataset, the query having given no row; or one response
    per row of the query, each tagged pending and carrying the dataset of
    its row.  So the list is never empty, a pending response never lacks
    its dataset, and no response carries a failure status. *)
Theorem find_response_shape (db : OracleDb) (requestor_ae : string) (w : trace)
    (responses : list response) :
  fst (handle_find db requestor_ae w) = Ok responses ->
  responses <> []
  /\ Forall (fun rsp => ~ In (fst rsp) [STATUS_UNABLE_TO_UNDERSTAND;
                                        STATUS_OUT_OF_RESOURCES;
                                        STATUS_UNABLE_TO_PROCESS]) responses
  /\ ((responses = [(STATUS_SUCCESS, None)]
       /\ fst (get_worklist_from_db db requestor_ae w) = Ok [])
      \/ exists rows dss,
           fst (get_worklist_from_db db requestor_ae w) = Ok rows
           /\ rows <> []
           /\ Forall2 (fun r ds => build_dataset r = Ok ds) rows dss
           /\ responses = pending_responses dss).
Proof.
  intro H.
  destruct (get_worklist_from_db_returns db requestor_ae w) as [rows Hq].
  rewrite (handle_find_after_query db requestor_ae w rows Hq) in H.
  destruct rows as [|r rows].
  - injection H as <-. split; [discriminate|]. split.
    + constructor; [|constructor]. simpl. intros [E|[E|[E|[]]]]; discriminate E.
    + left. now split.
  - destruct (find_loop_result _ _ _ H) as (dss & -> & Hall).
    simpl app. split; [|split].
    + inversion Hall; subst. discriminate.
    + unfold pending_responses. apply Forall_map, Forall_forall.
      intros ds _. simpl. intros [E|[E|[E|[]]]]; discriminate E.
    + right. exists (r :: rows), dss. repeat split; try assumption. discriminate.
Qed.

Lemma find_response_shape_witness :
  exists responses,
    fst (handle_find (healthy_db [sample_row]) "AE1" []) = Ok responses
    /\ responses <> [].
Proof.
  destruct (fst (handle_find (healthy_db [sample_row]) "AE1" []))
    as [responses|] eqn:H; [|discriminate H].
  exists responses. split; [reflexivity|].
  exact (proj1 (find_response_shape (healthy_db [sample_row]) "AE1" []
                  responses H)).
Defined.

(* ===================================================================== *)
(** * More on the store forwarder *)
(* ===================================================================== *)

(** X18.  One push opens at most one association and releases none it did not
    open: the trace it adds is empty, or the association established, or
    the association established and released.  It is empty exactly when no
    association is established; it ends in the release exactly when the
    relay completes. *)
Theorem store_trace_shapes (node : Downstream) (w : trace) :
  exists t,
    snd (handle_store node w) = (w ++ t)%list
    /\ In t store_traces
    /\ (t <> [] <-> forwarder_ready node /\ associate_outcome node = Ok true)
    /\ (t = [AssocEstablished; AssocReleased]
        <-> exists status, relay_completes node status).
Proof.
  unfold store_traces, relay_completes, forwarder_ready. run_store_steps.
  destruct (forward_ae_fault node) as [e1|] eqn:E1.
  { exists []. rewrite app_nil_r. simpl. repeat split; auto; try congruence.
    - intros [[H _] _]. discriminate H.
    - intros (status & [H _] & _). discriminate H. }
  destruct (add_requested_context_fault node) as [e2|] eqn:E2.
  { exists []. rewrite app_nil_r. simpl. repeat split; auto; try congruence.
    - intros [[_ H] _]. discriminate H.
    - intros (status & [_ H] & _). discriminate H. }
  simpl.
  destruct (associate_outcome node) as [[|]|e3] eqn:E3; simpl.
  2, 3: exists []; rewrite app_nil_r; simpl; repeat split; auto; try congruence;
        [ intros [_ H]; discriminate H
        | intros (status & _ & H & _); discriminate H ].
  assert (forall t : trace, t <> [] ->
            (t <> [] <-> (None = (None : option exn) /\ None = (None : option exn))
                         /\ Ok true = (Ok true : result bool))) as Hest.
  { intros t Ht. split; [now repeat split | intros _; exact Ht]. }
  assert (forall P : Prop, ~ P ->
            ([AssocEstablished] = [AssocEstablished; AssocReleased] <-> P))
    as Hopen.
  { intros P HP. split; [discriminate | intro H; now destruct HP]. }
  destruct (has_file_meta node) as [has|e4] eqn:E4; simpl.
  2: { exists [AssocEstablished]. split; [reflexivity|]. split; [simpl; auto|].
       split; [apply Hest; discriminate|]. apply Hopen.
       intros (status & _ & _ & [H|[H _]] & _); discriminate H. }
  destruct has.
  - destruct (send_c_store_outcome node) as [status|e5] eqn:E5; simpl.
    + destruct (release_fault node) as [e6|] eqn:E6; simpl.
      * exists [AssocEstablished]. split; [reflexivity|]. split; [simpl; auto|].
        split; [apply Hest; discriminate|]. apply Hopen.
        intros (st & _ & _ & _ & _ & H). discriminate H.
      * exists [AssocEstablished; AssocReleased].
        split; [destruct status; simpl; now rewrite <- app_assoc|].
        split; [simpl; auto|]. split; [apply Hest; discriminate|].
        split; [intros _|reflexivity].
        exists status. repeat split; auto.
    + exists [AssocEstablished]. split; [reflexivity|]. split; [simpl; auto|].
      split; [apply Hest; discriminate|]. apply Hopen.
      intros (st & _ & _ & _ & H & _). discriminate H.
  - destruct (set_file_meta_fault node) as [e7|] eqn:E7; simpl.
    + exists [AssocEstablished]. split; [reflexivity|]. split; [simpl; auto|].
      split; [apply Hest; discriminate|]. apply Hopen.
      intros (st & _ & _ & [H|[_ H]] & _); discriminate H.
    + destruct (send_c_store_outcome node) as [status|e5] eqn:E5; simpl.
      * destruct (release_fault node) as [e6|] eqn:E6; simpl.
        -- exists [AssocEstablished]. split; [reflexivity|]. split; [simpl; auto|].
           split; [apply Hest; discriminate|]. apply Hopen.
           intros (st & _ & _ & _ & _ & H). discriminate H.
        -- exists [AssocEstablished; AssocReleased].
           split; [destruct status; simpl; now rewrite <- app_assoc|].
           split; [simpl; auto|]. split; [apply Hest; discriminate|].
           split; [intros _|reflexivity].
           exists status. repeat split; auto.
      * exists [AssocEstablished]. split; [reflexivity|]. split; [simpl; auto|].
        split; [apply Hest; discriminate|]. apply Hopen.
        intros (st & _ & _ & _ & H & _). discriminate H.
Qed.

(** The end of the relay: the transfer, the release, the status. *)
Ltac store_tail node :=
  destruct (send_c_store_outcome node) as [status|e5]; simpl;
  [|eexists _, [AssocEstablished]; split; [reflexivity|]; now (simpl; auto 10)];
  destruct (release_fault node) as [e6|]; simpl;
  [eexists _, [AssocEstablished]; split; [reflexivity|]; now (simpl; auto 10)|];
  destruct status as [|el status]; simpl;
  eexists _, [AssocEstablished; AssocReleased];
  (split; [now rewrite <- app_assoc|]);
  [now (simpl; auto 10) | split; [discriminate | reflexivity]].

(** X19.  What the handler returns tells what became of the association.  A
    status dataset of the downstream node and the out-of-resources code
    are returned with the association released; the unable-to-understand
    code with no association made; the unable-to-process code with no
    association made or with one left open.  So only the unable-to-process
    code can come with an association that is still open. *)
Theorem store_return_tells_trace (node : Downstream) (w : trace) :
  exists r t,
    handle_store node w = (Ok r, (w ++ t)%list)
    /\ match r with
       | ReturnDataset status =>
           status <> [] /\ t = [AssocEstablished; AssocReleased]
       | ReturnCode code =>
           (code = STATUS_OUT_OF_RESOURCES
            /\ t = [AssocEstablished; AssocReleased])
           \/ (code = STATUS_UNABLE_TO_UNDERSTAND /\ t = [])
           \/ (code = STATUS_UNABLE_TO_PROCESS
               /\ (t = [] \/ t = [AssocEstablished]))
       end.
Proof.
  run_store_steps.
  destruct (forward_ae_fault node) as [e1|].
  { eexists _, []. rewrite app_nil_r. split; [reflexivity|]. simpl. auto 10. }
  destruct (add_requested_context_fault node) as [e2|].
  { eexists _, []. rewrite app_nil_r. split; [reflexivity|]. simpl. auto 10. }
  simpl. destruct (associate_outcome node) as [[|]|e3]; simpl.
  2, 3: eexists _, []; rewrite app_nil_r; (split; [reflexivity|]); simpl; auto 10.
  destruct (has_file_meta node) as [[|]|e4]; simpl.
  - store_tail node.
  - destruct (set_file_meta_fault node) as [e7|]; simpl.
    + eexists _, [AssocEstablished]. split; [reflexivity|]. simpl. auto 10.
    + store_tail node.
  - eexists _, [AssocEstablished]. split; [reflexivity|]. simpl. auto 10.
Qed.

(* ===================================================================== *)
(** * NULL columns *)
(* ===================================================================== *)

(** X10.  A NULL in a column the builder prints is no error: it is printed as
    the text "None".  A row without appointment id gets the accession
    number "0000None" and the procedure id "00None"; without patient
    identifier, the patient id "None"; without account number, the comment
    "ACCOUNT_NUMBER: None"; without endpoint list, a patient name that
    ends in " - None". *)
Theorem null_columns_print_as_None (r : row) (ds : Dataset) :
  build_dataset r = Ok ds ->
  (nth_error r 10 = Some PyNone ->
   AccessionNumber ds = "0000None" /\ RequestedProcedureID ds = "00None"
   /\ exists step, ScheduledProcedureStepSequence ds = [step]
                   /\ ScheduledProcedureStepID step = "None")
  /\ (nth_error r 17 = Some PyNone -> PatientID ds = "None")
  /\ (nth_error r 19 = Some PyNone -> PatientComments ds = "ACCOUNT_NUMBER: None")
  /\ (nth_error r 18 = Some PyNone ->
      exists name, nth_error r 0 = Some (PyStr name)
                   /\ PatientName ds = normalize_name name ++ " - None").
Proof.
  intro Hb.
  destruct (build_dataset_inversion r ds Hb)
    as (v10 & v17 & name & v18 & y5 & m5 & d5 & h5 & i5 & s5 & v6 & v19 & v9
        & v11 & y3 & m3 & d3 & h3 & i3 & s3 & hour & v8 & v16 & v12
        & E10 & E17 & E0 & E18 & _ & _ & E19 & _ & _ & _ & _ & _ & _ & _ & ->).
  split; [|split; [|split]].
  - intro H. rewrite H in E10. injection E10 as <-.
    split; [reflexivity|]. split; [reflexivity|].
    eexists. split; reflexivity.
  - intro H. rewrite H in E17. now injection E17 as <-.
  - intro H. rewrite H in E19. now injection E19 as <-.
  - intro H. rewrite H in E18. injection E18 as <-.
    exists name. now split.
Qed.

Lemma null_columns_print_as_None_witness :
  exists ds,
    build_dataset (set_column 10 PyNone sample_row) = Ok ds
    /\ AccessionNumber ds = "0000None".
Proof.
  destruct (build_dataset (set_column 10 PyNone sample_row)) as [ds|] eqn:Hb;
    [|discriminate Hb].
  exists ds. split; [reflexivity|].
  destruct (null_columns_print_as_None _ ds Hb) as [H _].
  now destruct (H eq_refl) as [-> _].
Defined.
